(** * The interactive window contribution

    A shallow embedding of
    [src/vs/workbench/contrib/interactive/browser/interactive.contribution.ts]:
    the notebook content provider registered for the [interactive] view type
    (its [open] and [backup]), the editor input serializer, and the four
    commands [interactive.open], [interactive.execute],
    [interactive.history.previous] and [interactive.history.next].

    The file is written in TypeScript against the JavaScript runtime and the
    workbench services.  Values that the code handles without looking at their
    type (the result of [JSON.parse], cell metadata) are modelled by one
    dynamically typed universe [jsval]; typed objects (cells, editors, URIs)
    are records.  What the runtime and the services provide is collected in
    interfaces ([Runtime], [IInteractiveHistoryService]); the properties of
    them that a theorem relies on are stated as hypotheses of that theorem,
    and [Module Reference] gives implementations that satisfy them. *)

From Stdlib Require Import ZArith NArith List String Ascii Bool Lia FinFun.
From Stdlib Require Import Strings.Byte DecimalString DecimalPos DecimalN DecimalNat.
Import ListNotations.
Local Open Scope string_scope.

(** ** JavaScript values *)

(** [vs/base/common/uri]: the five components of a URI. *)
Record URI : Type := mkURI {
  scheme : string;
  authority : string;
  path : string;
  query : string;
  fragment : string
}.

(** [URI.from({ scheme, path })]; the other components default to empty. *)
Definition URI_from (scheme path : string) : URI :=
  mkURI scheme "" path "" "".

Definition URI_eqb (a b : URI) : bool :=
  String.eqb (scheme a) (scheme b) && String.eqb (authority a) (authority b)
  && String.eqb (path a) (path b) && String.eqb (query a) (query b)
  && String.eqb (fragment a) (fragment b).

(** The values the code passes around untyped.  Numbers are the integers
    (cell kinds and bytes are the only numbers the code produces); an object
    is the list of its own properties in enumeration order; [VUri] is an
    instance of the [URI] class. *)
Unset Elimination Schemes.
Inductive jsval : Type :=
| VUndefined
| VNull
| VBool (b : bool)
| VNum (n : Z)
| VStr (s : string)
| VArr (items : list jsval)
| VObj (props : list (string * jsval))
| VUri (u : URI).
Set Elimination Schemes.

(** An abrupt completion: the errors the modelled code can meet ([Error] is
    what [assertType] throws). *)
Inductive JsError : Type := SyntaxError | TypeError | Error.

Inductive completion (A : Type) : Type :=
| Normal (a : A)
| Throw (e : JsError).
Arguments Normal {A} a.
Arguments Throw {A} e.

Definition bind {A B : Type} (m : completion A) (k : A -> completion B)
  : completion B :=
  match m with
  | Normal a => k a
  | Throw e => Throw e
  end.

Notation "x <- m ;; k" := (bind m (fun x => k))
  (at level 61, m at next level, right associativity).

(** [l.map(f)] for a callback that may throw. *)
Fixpoint mapM {A B : Type} (f : A -> completion B) (l : list A)
  : completion (list B) :=
  match l with
  | [] => Normal []
  | x :: rest => y <- f x ;; ys <- mapM f rest ;; Normal (y :: ys)
  end.

(** Own property lookup.  A key bound twice (possible only in JSON text)
    resolves to the later binding, as [JSON.parse] does. *)
Fixpoint lookup (k : string) (props : list (string * jsval)) : option jsval :=
  match props with
  | [] => None
  | (k', v) :: rest =>
      match lookup k rest with
      | Some w => Some w
      | None => if String.eqb k k' then Some v else None
      end
  end.

(** [v.k] (also [v[k]]): reading a property of [undefined] or [null] throws;
    a missing property reads as [undefined].  No prototype defines any of the
    property names this file reads, so primitives and arrays answer
    [undefined]. *)
Definition get (v : jsval) (k : string) : completion jsval :=
  match v with
  | VUndefined | VNull => Throw TypeError
  | VObj props =>
      match lookup k props with
      | Some w => Normal w
      | None => Normal VUndefined
      end
  | VUri u =>
      Normal (if String.eqb k "scheme" then VStr (scheme u)
              else if String.eqb k "authority" then VStr (authority u)
              else if String.eqb k "path" then VStr (path u)
              else if String.eqb k "query" then VStr (query u)
              else if String.eqb k "fragment" then VStr (fragment u)
              else VUndefined)
  | _ => Normal VUndefined
  end.

(** [v.map(f)]: only arrays have a [map]; calling it on anything else is a
    [TypeError]. *)
Definition js_map {B : Type} (f : jsval -> completion B) (v : jsval)
  : completion (list B) :=
  match v with
  | VArr items => mapM f items
  | _ => Throw TypeError
  end.

(** [ToBoolean]. *)
Definition truthy (v : jsval) : bool :=
  match v with
  | VUndefined | VNull => false
  | VBool b => b
  | VNum n => negb (Z.eqb n 0)
  | VStr s => negb (String.eqb s "")
  | VArr _ | VObj _ | VUri _ => true
  end.

(** [Array.from(bytes)] for a [Uint8Array]: the array of its elements as
    numbers. *)
Definition Array_from (bytes : list byte) : jsval :=
  VArr (map (fun b => VNum (Z.of_N (Byte.to_N b))) bytes).

(** The JSON value that [JSON.stringify] writes for [v]: a property whose
    value is [undefined] is left out, an [undefined] array element becomes
    [null].  [None] where the value has no JSON text of its own in this model
    ([undefined] itself; a class instance, which is written through its
    [toJSON]). *)
Fixpoint JSON_value (v : jsval) : option jsval :=
  match v with
  | VUndefined | VUri _ => None
  | VNull | VBool _ | VNum _ | VStr _ => Some v
  | VArr items =>
      option_map VArr
        ((fix elements (l : list jsval) : option (list jsval) :=
            match l with
            | [] => Some []
            | x :: rest =>
                match (match x with VUndefined => Some VNull | _ => JSON_value x end),
                      elements rest with
                | Some j, Some js => Some (j :: js)
                | _, _ => None
                end
            end) items)
  | VObj props =>
      option_map VObj
        ((fix members (l : list (string * jsval)) : option (list (string * jsval)) :=
            match l with
            | [] => Some []
            | (k, VUndefined) :: rest => members rest
            | (k, x) :: rest =>
                match JSON_value x, members rest with
                | Some j, Some js => Some ((k, j) :: js)
                | _, _ => None
                end
            end) props)
  end.

(** The element and member loops of [JSON_value], named. *)
Fixpoint JSON_elements (l : list jsval) : option (list jsval) :=
  match l with
  | [] => Some []
  | x :: rest =>
      match (match x with VUndefined => Some VNull | _ => JSON_value x end),
            JSON_elements rest with
      | Some j, Some js => Some (j :: js)
      | _, _ => None
      end
  end.

Fixpoint JSON_members (l : list (string * jsval))
  : option (list (string * jsval)) :=
  match l with
  | [] => Some []
  | (k, VUndefined) :: rest => JSON_members rest
  | (k, x) :: rest =>
      match JSON_value x, JSON_members rest with
      | Some j, Some js => Some ((k, j) :: js)
      | _, _ => None
      end
  end.

(** ** What the runtime provides

    The JavaScript built-ins and the [vs/base] helpers the file calls.
    [JSON_parse] answers [None] where [JSON.parse] throws a [SyntaxError];
    [Uint8Array_from] answers [None] where [Uint8Array.from] throws;
    [marshalling_parse] is [parse] of [vs/base/common/marshalling]
    ([JSON.parse], then objects marked as URIs revived into [URI]
    instances), [None] where it throws. *)
Definition VSBuffer : Type := list byte.

Class Runtime : Type := {
  JSON_stringify : jsval -> string;
  JSON_parse : string -> option jsval;
  VSBuffer_fromString : string -> VSBuffer;
  VSBuffer_toString : VSBuffer -> string;
  Uint8Array_from : jsval -> option (list byte);
  URI_toString : URI -> string;
  marshalling_parse : string -> option jsval;
  Schemas_vscodeInteractive : string;
  Schemas_vscodeInteractiveInput : string
}.

(** [JSON.parse(JSON.stringify(v))] is the JSON value of [v]. *)
Definition JSON_roundtrip (rt : Runtime) : Prop :=
  forall v j, JSON_value v = Some j -> JSON_parse (JSON_stringify v) = Some j.

(** Decoding the UTF-8 bytes of a text written by [JSON.stringify] gives the
    text back. *)
Definition VSBuffer_roundtrip (rt : Runtime) : Prop :=
  forall v, VSBuffer_toString (VSBuffer_fromString (JSON_stringify v))
            = JSON_stringify v.

(** [Uint8Array.from(Array.from(bytes))] has the elements of [bytes]. *)
Definition Uint8Array_roundtrip (rt : Runtime) : Prop :=
  forall bytes, Uint8Array_from (Array_from bytes) = Some bytes.

(** What the serializer needs of the marshaller: the text written for an
    object with two URIs is parsed back into such an object, the URIs
    revived. *)
Definition marshalling_roundtrip (rt : Runtime) : Prop :=
  forall resource inputResource,
    marshalling_parse
      (JSON_stringify (VObj [("resource", VUri resource);
                             ("inputResource", VUri inputResource)]))
    = Some (VObj [("resource", VUri resource);
                  ("inputResource", VUri inputResource)]).

(** ** The notebook model *)

(** [CellKind] of [notebookCommon]; at run time an enum member is its
    number. *)
Inductive CellKind : Type := Markup | Code.

Definition CellKind_value (k : CellKind) : Z :=
  match k with
  | Markup => 1
  | Code => 2
  end.

(** One item of an output of a live cell: [{ mime, data: Uint8Array }]. *)
Module OutputItem.
Record t : Type := make { mime : string; data : list byte }.
End OutputItem.

(** [ICellOutput]. *)
Module CellOutput.
Record t : Type := make { outputId : string; outputs : list OutputItem.t }.
End CellOutput.

(** A cell of a live notebook document ([NotebookCellTextModel]). *)
Module Cell.
Record t : Type := make {
  cellKind : CellKind;
  language : string;
  metadata : jsval;
  mime : option string;
  outputs : list CellOutput.t;
  getValue : string
}.
End Cell.

(** A live notebook document ([NotebookTextModel]). *)
Module NotebookDocument.
Record t : Type := make { uri : URI; cells : list Cell.t }.
Definition length (d : t) : nat := List.length (cells d).
End NotebookDocument.

(** What [open] hands to the notebook service.  The fields come out of
    [JSON.parse] unchecked, so they are [jsval]s; only the output bytes have
    been through [Uint8Array.from]. *)
Module OutputItemDto.
Record t : Type := make { mime : jsval; data : list byte }.
End OutputItemDto.

Module OutputDto.
Record t : Type := make { outputId : jsval; outputs : list OutputItemDto.t }.
End OutputDto.

Module CellDto.
Record t : Type := make {
  source : jsval;
  language : jsval;
  cellKind : jsval;
  mime : jsval;
  outputs : list OutputDto.t;
  metadata : jsval
}.
End CellDto.

Module NotebookData.
Record t : Type := make { metadata : jsval; cells : list CellDto.t }.
End NotebookData.

(** [contentOptions]. *)
Record TransientOptions : Type := {
  transientOutputs : bool;
  transientCellMetadata : list (string * bool);
  transientDocumentMetadata : list (string * bool)
}.

Definition contentOptions0 : TransientOptions :=
  {| transientOutputs := true;
     transientCellMetadata := [];
     transientDocumentMetadata := [] |}.

Record OpenResult : Type := {
  data : NotebookData.t;
  transientOptions : TransientOptions
}.

(** The second argument of [open]: [string | VSBuffer | undefined]. *)
Inductive BackupId : Type :=
| IdString (s : string)
| IdBuffer (b : VSBuffer)
| IdUndefined.

(** ** The content provider: [InteractiveDocumentContribution] *)

Module controller.
Section Controller.
Context {rt : Runtime}.

(** [ot => ({ mime: ot.mime, data: Uint8Array.from(ot.data) })] *)
Definition open_item (ot : jsval) : completion OutputItemDto.t :=
  mime <- get ot "mime" ;;
  d <- get ot "data" ;;
  match Uint8Array_from d with
  | Some bytes => Normal (OutputItemDto.make mime bytes)
  | None => Throw TypeError
  end.

(** [output => ({ outputId: output.outputId, outputs: output.outputs.map(...) })] *)
Definition open_output (output : jsval) : completion OutputDto.t :=
  outputId <- get output "outputId" ;;
  items <- get output "outputs" ;;
  outputs <- js_map open_item items ;;
  Normal (OutputDto.make outputId outputs).

(** The callback of [document.cells.map]. *)
Definition open_cell (cell : jsval) : completion CellDto.t :=
  source <- get cell "content" ;;
  language <- get cell "language" ;;
  cellKind <- get cell "kind" ;;
  mime <- get cell "mime" ;;
  outs <- get cell "outputs" ;;
  outputs <- (if truthy outs then js_map open_output outs else Normal []) ;;
  metadata <- get cell "metadata" ;;
  Normal (CellDto.make source language cellKind mime outputs metadata).

(** The body of the [try] block. *)
Definition open_try (contentOptions : TransientOptions) (backup : string)
  : completion OpenResult :=
  document <- match JSON_parse backup with
              | Some d => Normal d
              | None => Throw SyntaxError
              end ;;
  cells <- get document "cells" ;;
  cells' <- js_map open_cell cells ;;
  Normal {| data := NotebookData.make (VObj []) cells';
            transientOptions := contentOptions |}.

(** [open]: a [VSBuffer] backup is decoded; anything thrown while doing so
    is swallowed by the empty [catch], and every other path ends in the
    empty document. *)
Definition open (contentOptions : TransientOptions) (_uri : URI)
    (_backupId : BackupId) : OpenResult :=
  let empty := {| data := NotebookData.make (VObj []) [];
                  transientOptions := contentOptions |} in
  match _backupId with
  | IdBuffer buf =>
      let backup := VSBuffer_toString buf in
      match open_try contentOptions backup with
      | Normal result => result
      | Throw _e => empty
      end
  | _ => empty
  end.

(** [save] and [saveAs] always answer [false]. *)
Definition save (uri : URI) : bool := false.
Definition saveAs (uri target : URI) : bool := false.

Definition backup_item (ot : OutputItem.t) : jsval :=
  VObj [("mime", VStr (OutputItem.mime ot));
        ("data", Array_from (OutputItem.data ot))].

Definition backup_output (output : CellOutput.t) : jsval :=
  VObj [("outputId", VStr (CellOutput.outputId output));
        ("outputs", VArr (map backup_item (CellOutput.outputs output)))].

(** The callback of [doc.cells.map]; the fourth key is spelled [mine]. *)
Definition backup_cell (cell : Cell.t) : jsval :=
  VObj [("kind", VNum (CellKind_value (Cell.cellKind cell)));
        ("language", VStr (Cell.language cell));
        ("metadata", Cell.metadata cell);
        ("mine", match Cell.mime cell with
                 | Some m => VStr m
                 | None => VUndefined
                 end);
        ("outputs", VArr (map backup_output (Cell.outputs cell)));
        ("content", VStr (Cell.getValue cell))].

(** [notebookService.listNotebookDocuments().find(document =>
    document.uri.toString() === uri.toString())] *)
Definition find_document (documents : list NotebookDocument.t) (uri : URI)
  : option NotebookDocument.t :=
  find (fun document =>
          String.eqb (URI_toString (NotebookDocument.uri document))
                     (URI_toString uri))
       documents.

(** [backup]: [string | VSBuffer]. *)
Definition backup (documents : list NotebookDocument.t) (uri : URI)
  : string + VSBuffer :=
  match find_document documents uri with
  | Some doc =>
      let cells := map backup_cell (NotebookDocument.cells doc) in
      let buffer :=
        VSBuffer_fromString (JSON_stringify (VObj [("cells", VArr cells)])) in
      inr buffer
  | None => inl ""
  end.

End Controller.
End controller.

(** ** Editor inputs and the editor input serializer *)

Module NotebookEditorInput.
Record t : Type := make { resource : URI }.
End NotebookEditorInput.

(** [InteractiveEditorInput], by the two resources it is created from:
    [create(instantiationService, resource, inputResource)] makes the input
    whose primary (notebook) input has [resource]. *)
Module InteractiveEditorInput.
Record t : Type := make {
  primary : NotebookEditorInput.t;
  inputResource : URI
}.
Definition create (resource inputResource : URI) : t :=
  make (NotebookEditorInput.make resource) inputResource.
Definition resource (input : t) : URI :=
  NotebookEditorInput.resource (primary input).
End InteractiveEditorInput.

(** [EditorInput]: an interactive input, or some other editor with its
    optional resource. *)
Inductive EditorInput : Type :=
| InteractiveInput (input : InteractiveEditorInput.t)
| OtherInput (resource : option URI).

Definition EditorInput_resource (e : EditorInput) : option URI :=
  match e with
  | InteractiveInput input => Some (InteractiveEditorInput.resource input)
  | OtherInput resource => resource
  end.

(** [URI.isUri]: an instance of [URI].  (Its duck-typing branch asks for the
    methods [with] and [toString], which no plain value has.) *)
Definition URI_isUri (thing : jsval) : bool :=
  match thing with
  | VUri _ => true
  | _ => false
  end.

Module InteractiveEditorSerializer.
Section Serializer.
Context {rt : Runtime}.

Definition canSerialize : bool := true.

(** [assertType] throws for an input of another class. *)
Definition serialize (input : EditorInput) : completion string :=
  match input with
  | InteractiveInput input =>
      Normal (JSON_stringify
                (VObj [("resource",
                        VUri (NotebookEditorInput.resource
                                (InteractiveEditorInput.primary input)));
                       ("inputResource",
                        VUri (InteractiveEditorInput.inputResource input))]))
  | OtherInput _ => Throw Error
  end.

Definition deserialize (raw : string)
  : completion (option InteractiveEditorInput.t) :=
  data <- match marshalling_parse raw with
          | Some d => Normal d
          | None => Throw SyntaxError
          end ;;
  if negb (truthy data) then Normal None
  else
    resource <- get data "resource" ;;
    inputResource <- get data "inputResource" ;;
    if negb (truthy data) || negb (URI_isUri resource)
       || negb (URI_isUri inputResource)
    then Normal None
    else
      match resource, inputResource with
      | VUri resource, VUri inputResource =>
          Normal (Some (InteractiveEditorInput.create resource inputResource))
      | _, _ => Normal None
      end.

End Serializer.
End InteractiveEditorSerializer.

(** ** The workbench services the commands use *)

(** [IInteractiveHistoryService], over the state [H] of the service.
    The two getters answer [string | null]. *)
Class IInteractiveHistoryService (H : Type) : Type := {
  addToHistory : URI -> string -> H -> H;
  getPreviousValue : URI -> H -> option string * H;
  getNextValue : URI -> H -> option string * H;
  clearHistory : URI -> H -> H
}.

(** The declared type of a cell handed to the notebook model
    ([ICellDto2]). *)
Module ICellDto2.
Record t : Type := make {
  cellKind : CellKind;
  mime : option string;
  language : string;
  source : string;
  outputs : list CellOutput.t;
  metadata : jsval
}.
End ICellDto2.

(** [{ editType: CellEditType.Replace, index, count, cells }] *)
Record ICellReplaceEdit : Type := {
  index : nat;
  count : nat;
  cells : list ICellDto2.t
}.

(** [new ResourceNotebookCellEdit(resource, cellEdit)] *)
Record ResourceNotebookCellEdit : Type := {
  resource : URI;
  cellEdit : ICellReplaceEdit
}.

Record INotebookKernel : Type := { supportedLanguages : list string }.

(** [NotebookEditorWidget], by what the commands read of it. *)
Record NotebookEditorWidget : Type := {
  textModel : option NotebookDocument.t;
  activeKernel : option INotebookKernel
}.

(** [CodeEditorWidget]; its text model is given by its value. *)
Record CodeEditorWidget : Type := { getModel : option string }.

(** The control of the active editor pane, seen through the cast
    [{ notebookEditor: NotebookEditorWidget | undefined, codeEditor }]. *)
Record EditorControl : Type := {
  notebookEditor : option NotebookEditorWidget;
  codeEditor : option CodeEditorWidget
}.

Record IEditorIdentifier : Type := {
  groupId : Z;
  editor : EditorInput
}.

(** [IEditorService], by what the commands read:
    [activeEditorPane?.getControl()], [getEditors(EditorsOrder.SEQUENTIAL)]
    and [findEditors]; [viewColumnToEditorGroup] is the helper of that name
    over the editor group service. *)
Record IEditorService : Type := {
  activeControl : option EditorControl;
  getEditors : list IEditorIdentifier;
  findEditors : URI -> list IEditorIdentifier;
  viewColumnToEditorGroup : option Z -> Z
}.

(** The state the commands run in: the editor service and the state of the
    history service. *)
Record Workbench (H : Type) : Type := {
  editorService : IEditorService;
  historyService : H
}.
Arguments editorService {H} w.
Arguments historyService {H} w.

(** The calls a command makes on the services, in order. *)
Inductive ServiceCall : Type :=
| call_addToHistory (uri : URI) (value : string)
| call_getPreviousValue (uri : URI)
| call_getNextValue (uri : URI)
| call_clearHistory (uri : URI)
| call_setValue (value : string)
| call_bulkEdit_apply (edits : list ResourceNotebookCellEdit)
| call_executeNotebookCells (start end_ : nat)
| call_revealCellRangeInView (start end_ : nat)
| call_openEditor (input : InteractiveEditorInput.t) (group : Z).

(** [Array.prototype.splice(index, count, ...items)]. *)
Definition splice {A : Type} (index count : nat) (items l : list A) : list A :=
  firstn index l ++ items ++ skipn (index + count) l.

(** The notebook model makes a cell out of an [ICellDto2]. *)
Definition NotebookCellTextModel_of (dto : ICellDto2.t) : Cell.t :=
  Cell.make (ICellDto2.cellKind dto) (ICellDto2.language dto)
            (ICellDto2.metadata dto) (ICellDto2.mime dto)
            (ICellDto2.outputs dto) (ICellDto2.source dto).

(** What a [Replace] edit does to the cells of the notebook it names: the
    model splices the new cells in. *)
Definition applyCellEdit (e : ResourceNotebookCellEdit)
    (doc : NotebookDocument.t) : NotebookDocument.t :=
  NotebookDocument.make (NotebookDocument.uri doc)
    (splice (index (cellEdit e)) (count (cellEdit e))
            (map NotebookCellTextModel_of (cells (cellEdit e)))
            (NotebookDocument.cells doc)).

(** The string of a number in a template literal. *)
Definition Number_toString (n : nat) : string :=
  NilEmpty.string_of_uint (Nat.to_uint n).

Definition set_textModels (control : EditorControl) (nb : NotebookEditorWidget)
    (doc : NotebookDocument.t) (text : string) : EditorControl :=
  {| notebookEditor := Some {| textModel := Some doc;
                               activeKernel := activeKernel nb |};
     codeEditor := Some {| getModel := Some text |} |}.

(** ** The commands *)

Module commands.
Section Commands.
Context {rt : Runtime} {H : Type} {history : IInteractiveHistoryService H}.

(** The notebook document and the input text of the active interactive
    editor: the two nested [if]s every command starts with. *)
Definition active (w : Workbench H)
  : option (EditorControl * NotebookEditorWidget * NotebookDocument.t * string) :=
  match activeControl (editorService w) with
  | Some editorControl =>
      match notebookEditor editorControl, codeEditor editorControl with
      | Some nb, Some code =>
          match textModel nb, getModel code with
          | Some notebookDocument, Some text =>
              Some (editorControl, nb, notebookDocument, text)
          | _, _ => None
          end
      | _, _ => None
      end
  | None => None
  end.

Definition with_control (w : Workbench H) (control : EditorControl) (h : H)
  : Workbench H :=
  {| editorService :=
       {| activeControl := Some control;
          getEditors := getEditors (editorService w);
          findEditors := findEditors (editorService w);
          viewColumnToEditorGroup :=
            viewColumnToEditorGroup (editorService w) |};
     historyService := h |}.

(** [activeKernel?.supportedLanguages[0] ?? 'plaintext'] *)
Definition execute_language (nb : NotebookEditorWidget) : string :=
  match activeKernel nb with
  | Some kernel =>
      match supportedLanguages kernel with
      | l :: _ => l
      | [] => "plaintext"
      end
  | None => "plaintext"
  end.

(** The edit [interactive.execute] asks for. *)
Definition execute_edit (notebookDocument : NotebookDocument.t)
    (language value : string) : ResourceNotebookCellEdit :=
  {| resource := NotebookDocument.uri notebookDocument;
     cellEdit :=
       {| index := NotebookDocument.length notebookDocument;
          count := 0;
          cells := [ICellDto2.make Code None language value [] (VObj [])] |} |}.

(** [interactive.execute]. *)
Definition execute_run (w : Workbench H) : Workbench H * list ServiceCall :=
  match active w with
  | Some (editorControl, nb, notebookDocument, text) =>
      let language := execute_language nb in
      let index := NotebookDocument.length notebookDocument in
      let value := text in
      let h := addToHistory (NotebookDocument.uri notebookDocument) ""
                 (historyService w) in
      let edit := execute_edit notebookDocument language value in
      (with_control w
         (set_textModels editorControl nb
            (applyCellEdit edit notebookDocument) "") h,
       [call_addToHistory (NotebookDocument.uri notebookDocument) "";
        call_setValue "";
        call_bulkEdit_apply [edit];
        call_executeNotebookCells index (index + 1);
        call_revealCellRangeInView index (index + 1)])
  | None => (w, [])
  end.

(** The common shape of the two history commands: ask the history
    service, and set the input text when the answer is truthy. *)
Definition history_run (getValue : URI -> H -> option string * H)
    (call : URI -> ServiceCall) (w : Workbench H)
  : Workbench H * list ServiceCall :=
  match active w with
  | Some (editorControl, nb, notebookDocument, text) =>
      let uri := NotebookDocument.uri notebookDocument in
      let (previousValue, h) := getValue uri (historyService w) in
      match previousValue with
      | Some value =>
          if truthy (VStr value)
          then (with_control w
                  (set_textModels editorControl nb notebookDocument value) h,
                [call uri; call_setValue value])
          else (with_control w editorControl h, [call uri])
      | None => (with_control w editorControl h, [call uri])
      end
  | None => (w, [])
  end.

(** [interactive.history.previous]. *)
Definition history_previous_run : Workbench H -> Workbench H * list ServiceCall :=
  history_run getPreviousValue call_getPreviousValue.

(** [interactive.history.next]. *)
Definition history_next_run : Workbench H -> Workbench H * list ServiceCall :=
  history_run getNextValue call_getNextValue.

(** [`Interactive-${counter}.interactive`] under the interactive scheme. *)
Definition mint_notebookUri (counter : nat) : URI :=
  URI_from Schemas_vscodeInteractive
    ("Interactive-" ++ Number_toString counter ++ ".interactive").

(** [`InteractiveInput-${counter}`] under the interactive input scheme. *)
Definition mint_inputUri (counter : nat) : URI :=
  URI_from Schemas_vscodeInteractiveInput
    ("InteractiveInput-" ++ Number_toString counter).

(** [existingNotebookDocument]: the strings of the resources of the open
    editors (the [Set] is only asked for membership). *)
Definition existing_documents (editors : list IEditorIdentifier) : list string :=
  flat_map (fun id =>
              match EditorInput_resource (editor id) with
              | Some resource => [URI_toString resource]
              | None => []
              end) editors.

Definition Set_has (s : list string) (x : string) : bool :=
  existsb (String.eqb x) s.

(** The [do ... while] loop from the value [counter]; [fuel] bounds the
    number of rounds, [None] when they do not suffice. *)
Fixpoint mint (fuel counter : nat) (existingNotebookDocument : list string)
  : option (URI * URI) :=
  match fuel with
  | 0 => None
  | S fuel' =>
      let notebookUri := mint_notebookUri counter in
      let inputUri := mint_inputUri counter in
      if Set_has existingNotebookDocument (URI_toString notebookUri)
      then mint fuel' (S counter) existingNotebookDocument
      else Some (notebookUri, inputUri)
  end.

(** The first [if] of [interactive.open]: an interactive editor already
    open on [resource]. *)
Definition open_existing (es : IEditorService) (resource : option URI)
  : option (InteractiveEditorInput.t * Z) :=
  match resource with
  | Some resource =>
      if String.eqb (scheme resource) Schemas_vscodeInteractive then
        let resourceUri := resource in
        let editors :=
          filter (fun id =>
                    match editor id with
                    | InteractiveInput input =>
                        String.eqb
                          (URI_toString (InteractiveEditorInput.resource input))
                          (URI_toString resourceUri)
                    | OtherInput _ => false
                    end)
                 (findEditors es resourceUri) in
        match editors with
        | id :: _ =>
            match editor id with
            | InteractiveInput editorInput => Some (editorInput, groupId id)
            | OtherInput _ => None
            end
        | [] => None
        end
      else None
  | None => None
  end.

(** [interactive.open]: what it returns ([{ notebookUri, inputUri }]), the
    state after it and the calls it made.  The loop is given one round more
    than there are open editors; [None] if that were not enough. *)
Definition open_run (column : option Z) (resource : option URI)
    (w : Workbench H)
  : option ((URI * URI) * Workbench H * list ServiceCall) :=
  let group := viewColumnToEditorGroup (editorService w) column in
  match open_existing (editorService w) resource with
  | Some (editorInput, currentGroup) =>
      Some ((InteractiveEditorInput.resource editorInput,
             InteractiveEditorInput.inputResource editorInput),
            w, [call_openEditor editorInput currentGroup])
  | None =>
      let existingNotebookDocument :=
        existing_documents (getEditors (editorService w)) in
      match mint (S (List.length existingNotebookDocument)) 1
                 existingNotebookDocument with
      | Some (notebookUri, inputUri) =>
          let editorInput :=
            InteractiveEditorInput.create notebookUri inputUri in
          Some ((notebookUri, inputUri),
                {| editorService := editorService w;
                   historyService :=
                     clearHistory notebookUri (historyService w) |},
                [call_clearHistory notebookUri;
                 call_openEditor editorInput group])
      | None => None
      end
  end.

End Commands.
End commands.

(** ** Reference implementations of the interfaces

    A JSON writer and reader over the values of [jsval], the marshaller of
    URIs, and a history store.  They show that what the theorems ask of the
    runtime can be had together, and let the model run on concrete
    documents. *)

Module Reference.

Definition dquote : ascii := ascii_of_nat 34.
Definition backslash : ascii := ascii_of_nat 92.

(** *** Writing JSON *)

Definition hex_digit (n : N) : ascii :=
  ascii_of_N (if N.ltb n 10 then 48 + n else 87 + n).

(** [QuoteJSONString], one character at a time. *)
Definition escape (c : ascii) : string :=
  if Ascii.eqb c dquote then String backslash (String dquote EmptyString)
  else if Ascii.eqb c backslash then String backslash (String backslash EmptyString)
  else if Ascii.eqb c "008" then String backslash "b"
  else if Ascii.eqb c "012" then String backslash "f"
  else if Ascii.eqb c "010" then String backslash "n"
  else if Ascii.eqb c "013" then String backslash "r"
  else if Ascii.eqb c "009" then String backslash "t"
  else if N.ltb (N_of_ascii c) 32
       then String backslash
              (String "u" (String "0" (String "0"
                 (String (hex_digit (N.div (N_of_ascii c) 16))
                    (String (hex_digit (N.modulo (N_of_ascii c) 16))
                       EmptyString)))))
  else String c EmptyString.

Fixpoint quote_body (s : string) : string :=
  match s with
  | EmptyString => EmptyString
  | String c rest => escape c ++ quote_body rest
  end.

Definition quote (s : string) : string :=
  String dquote (quote_body s ++ String dquote EmptyString).

Definition print_number (n : Z) : string :=
  (if Z.ltb n 0 then "-" else "")
  ++ NilEmpty.string_of_uint (N.to_uint (Z.abs_N n)).

(** The text of a JSON value, without white space. *)
Fixpoint print (v : jsval) : string :=
  match v with
  | VUndefined | VNull | VUri _ => "null"
  | VBool true => "true"
  | VBool false => "false"
  | VNum n => print_number n
  | VStr s => quote s
  | VArr items =>
      "[" ++
      match items with
      | [] => "]"
      | x :: rest =>
          print x ++
          (fix elements (l : list jsval) : string :=
             match l with
             | [] => "]"
             | y :: l' => "," ++ print y ++ elements l'
             end) rest
      end
  | VObj props =>
      "{" ++
      match props with
      | [] => "}"
      | (k, x) :: rest =>
          quote k ++ ":" ++ print x ++
          (fix members (l : list (string * jsval)) : string :=
             match l with
             | [] => "}"
             | (k', y) :: l' => "," ++ quote k' ++ ":" ++ print y ++ members l'
             end) rest
      end
  end.

(** [toJSON] of a [URI]: the marker [$mid] and the components that are not
    empty. *)
Definition URI_toJSON (u : URI) : jsval :=
  let component k s :=
    if String.eqb s "" then [] else [(k, VStr s)] in
  VObj (("$mid", VNum 1)
        :: component "path" (path u) ++ component "scheme" (scheme u)
        ++ component "authority" (authority u) ++ component "query" (query u)
        ++ component "fragment" (fragment u)).

(** [SerializeJSONProperty]: what [JSON.stringify] makes of a value before
    writing it.  ([undefined] is the array element rule; [JSON.stringify] of
    [undefined] itself is not a text.) *)
Fixpoint serialize (v : jsval) : jsval :=
  match v with
  | VUndefined => VNull
  | VUri u => URI_toJSON u
  | VArr items => VArr (map serialize items)
  | VObj props =>
      VObj ((fix members (l : list (string * jsval)) : list (string * jsval) :=
               match l with
               | [] => []
               | (k, VUndefined) :: rest => members rest
               | (k, x) :: rest => (k, serialize x) :: members rest
               end) props)
  | _ => v
  end.

Definition stringify (v : jsval) : string := print (serialize v).

(** *** Reading JSON *)

Definition is_ws (c : ascii) : bool :=
  Ascii.eqb c " " || Ascii.eqb c "009" || Ascii.eqb c "010" || Ascii.eqb c "013".

Fixpoint skip_ws (s : string) : string :=
  match s with
  | EmptyString => EmptyString
  | String c rest => if is_ws c then skip_ws rest else s
  end.

Definition digit_of (c : ascii) : option (Decimal.uint -> Decimal.uint) :=
  if Ascii.eqb c "0" then Some Decimal.D0
  else if Ascii.eqb c "1" then Some Decimal.D1
  else if Ascii.eqb c "2" then Some Decimal.D2
  else if Ascii.eqb c "3" then Some Decimal.D3
  else if Ascii.eqb c "4" then Some Decimal.D4
  else if Ascii.eqb c "5" then Some Decimal.D5
  else if Ascii.eqb c "6" then Some Decimal.D6
  else if Ascii.eqb c "7" then Some Decimal.D7
  else if Ascii.eqb c "8" then Some Decimal.D8
  else if Ascii.eqb c "9" then Some Decimal.D9
  else None.

(** The longest prefix of digits. *)
Fixpoint parse_uint (s : string) : Decimal.uint * string :=
  match s with
  | EmptyString => (Decimal.Nil, EmptyString)
  | String c rest =>
      match digit_of c with
      | Some d => let (u, rest') := parse_uint rest in (d u, rest')
      | None => (Decimal.Nil, s)
      end
  end.

(** What may not follow the digits of an integer: a fraction or an exponent
    would make a number outside [jsval]. *)
Definition continues_number (s : string) : bool :=
  match s with
  | EmptyString => false
  | String c _ => Ascii.eqb c "." || Ascii.eqb c "e" || Ascii.eqb c "E"
  end.

(** An unsigned integer: [0], or digits that do not start with [0]. *)
Definition parse_N (s : string) : option (N * string) :=
  match parse_uint s with
  | (Decimal.Nil, _) => None
  | (Decimal.D0 Decimal.Nil, rest) =>
      if continues_number rest then None else Some (0%N, rest)
  | (Decimal.D0 _, _) => None
  | (u, rest) =>
      if continues_number rest then None else Some (N.of_uint u, rest)
  end.

Definition parse_number (s : string) : option (jsval * string) :=
  match s with
  | EmptyString => None
  | String c rest =>
      if Ascii.eqb c "-"
      then match parse_N rest with
           | Some (n, rest') => Some (VNum (- Z.of_N n), rest')
           | None => None
           end
      else match parse_N s with
           | Some (n, rest') => Some (VNum (Z.of_N n), rest')
           | None => None
           end
  end.

Definition hex_value (c : ascii) : option N :=
  let n := N_of_ascii c in
  if N.leb 48 n && N.leb n 57 then Some (n - 48)%N
  else if N.leb 97 n && N.leb n 102 then Some (n - 87)%N
  else if N.leb 65 n && N.leb n 70 then Some (n - 55)%N
  else None.

(** The UTF-8 bytes of the code unit of a [\uXXXX] escape.  A surrogate
    ([None]) would need its partner; the reference reader gives up on it. *)
Definition utf8_of_unit (n : N) : option string :=
  if N.ltb n 128 then Some (String (ascii_of_N n) EmptyString)
  else if N.ltb n 2048
  then Some (String (ascii_of_N (192 + N.div n 64))
               (String (ascii_of_N (128 + N.modulo n 64)) EmptyString))
  else if N.leb 55296 n && N.leb n 57343 then None
  else Some (String (ascii_of_N (224 + N.div n 4096))
               (String (ascii_of_N (128 + N.modulo (N.div n 64) 64))
                  (String (ascii_of_N (128 + N.modulo n 64)) EmptyString))).

Definition unescape (e : ascii) : option ascii :=
  if Ascii.eqb e dquote then Some dquote
  else if Ascii.eqb e backslash then Some backslash
  else if Ascii.eqb e "/" then Some "/"%char
  else if Ascii.eqb e "b" then Some "008"%char
  else if Ascii.eqb e "f" then Some "012"%char
  else if Ascii.eqb e "n" then Some "010"%char
  else if Ascii.eqb e "r" then Some "013"%char
  else if Ascii.eqb e "t" then Some "009"%char
  else None.

(** The characters of a string after its opening quote, up to the closing
    one. *)
Fixpoint parse_string_body (s : string) : option (string * string) :=
  match s with
  | EmptyString => None
  | String c rest =>
      if Ascii.eqb c dquote then Some (EmptyString, rest)
      else if Ascii.eqb c backslash then
        match rest with
        | EmptyString => None
        | String e rest1 =>
            if Ascii.eqb e "u" then
              match rest1 with
              | String h1 (String h2 (String h3 (String h4 rest2))) =>
                  match hex_value h1, hex_value h2, hex_value h3, hex_value h4 with
                  | Some a, Some b, Some c', Some d =>
                      match utf8_of_unit (((a * 16 + b) * 16 + c') * 16 + d)%N,
                            parse_string_body rest2 with
                      | Some bytes, Some (str, rest') => Some (bytes ++ str, rest')
                      | _, _ => None
                      end
                  | _, _, _, _ => None
                  end
              | _ => None
              end
            else
              match unescape e, parse_string_body rest1 with
              | Some c', Some (str, rest') => Some (String c' str, rest')
              | _, _ => None
              end
        end
      else if N.ltb (N_of_ascii c) 32 then None
      else
        match parse_string_body rest with
        | Some (str, rest') => Some (String c str, rest')
        | None => None
        end
  end.

(** [s] without the prefix [lit]. *)
Fixpoint literal (lit s : string) : option string :=
  match lit, s with
  | EmptyString, _ => Some s
  | String a lit', String b s' => if Ascii.eqb a b then literal lit' s' else None
  | String _ _, EmptyString => None
  end.

(** A value at the head of [s] and the text after it.  [parse_elements]
    and [parse_members] read what follows the first element of an array
    and the first member of an object. *)
Fixpoint parse_value (fuel : nat) (s : string) : option (jsval * string) :=
  match fuel with
  | 0 => None
  | S fuel' =>
      match skip_ws s with
      | EmptyString => None
      | String c rest =>
          if Ascii.eqb c "n" then option_map (pair VNull) (literal "ull" rest)
          else if Ascii.eqb c "t" then option_map (pair (VBool true)) (literal "rue" rest)
          else if Ascii.eqb c "f" then option_map (pair (VBool false)) (literal "alse" rest)
          else if Ascii.eqb c dquote then
            match parse_string_body rest with
            | Some (str, rest') => Some (VStr str, rest')
            | None => None
            end
          else if Ascii.eqb c "[" then
            match skip_ws rest with
            | EmptyString => None
            | String c' rest' =>
                if Ascii.eqb c' "]" then Some (VArr [], rest')
                else
                  match parse_value fuel' rest with
                  | Some (x, rest1) =>
                      match parse_elements fuel' rest1 with
                      | Some (xs, rest2) => Some (VArr (x :: xs), rest2)
                      | None => None
                      end
                  | None => None
                  end
            end
          else if Ascii.eqb c "{" then
            match skip_ws rest with
            | EmptyString => None
            | String c' rest' =>
                if Ascii.eqb c' "}" then Some (VObj [], rest')
                else
                  match parse_member fuel' rest with
                  | Some (m, rest1) =>
                      match parse_members fuel' rest1 with
                      | Some (ms, rest2) => Some (VObj (m :: ms), rest2)
                      | None => None
                      end
                  | None => None
                  end
            end
          else parse_number (String c rest)
      end
  end
with parse_elements (fuel : nat) (s : string) : option (list jsval * string) :=
  match fuel with
  | 0 => None
  | S fuel' =>
      match skip_ws s with
      | EmptyString => None
      | String c rest =>
          if Ascii.eqb c "]" then Some ([], rest)
          else if Ascii.eqb c "," then
            match parse_value fuel' rest with
            | Some (x, rest1) =>
                match parse_elements fuel' rest1 with
                | Some (xs, rest2) => Some (x :: xs, rest2)
                | None => None
                end
            | None => None
            end
          else None
      end
  end
with parse_member (fuel : nat) (s : string) : option ((string * jsval) * string) :=
  match fuel with
  | 0 => None
  | S fuel' =>
      match skip_ws s with
      | EmptyString => None
      | String c rest =>
          if Ascii.eqb c dquote then
            match parse_string_body rest with
            | Some (k, rest1) =>
                match skip_ws rest1 with
                | EmptyString => None
                | String c' rest2 =>
                    if Ascii.eqb c' ":" then
                      match parse_value fuel' rest2 with
                      | Some (x, rest3) => Some ((k, x), rest3)
                      | None => None
                      end
                    else None
                end
            | None => None
            end
          else None
      end
  end
with parse_members (fuel : nat) (s : string)
  : option (list (string * jsval) * string) :=
  match fuel with
  | 0 => None
  | S fuel' =>
      match skip_ws s with
      | EmptyString => None
      | String c rest =>
          if Ascii.eqb c "}" then Some ([], rest)
          else if Ascii.eqb c "," then
            match parse_member fuel' rest with
            | Some (m, rest1) =>
                match parse_members fuel' rest1 with
                | Some (ms, rest2) => Some (m :: ms, rest2)
                | None => None
                end
            | None => None
            end
          else None
      end
  end.

(** The whole text is one value, with white space around it at most.  The
    reader is given two rounds more than the text has characters. *)
Definition parse (s : string) : option jsval :=
  match parse_value (S (S (String.length s))) s with
  | Some (v, rest) =>
      match skip_ws rest with
      | EmptyString => Some v
      | String _ _ => None
      end
  | None => None
  end.

(** *** The marshaller of [vs/base/common/marshalling] *)

(** [URI.revive(data)]: the components found in [data], empty where
    missing. *)
Definition URI_revive (props : list (string * jsval)) : URI :=
  let component k :=
    match lookup k props with
    | Some (VStr s) => s
    | _ => ""
    end in
  mkURI (component "scheme") (component "authority") (component "path")
        (component "query") (component "fragment").

(** [revive(obj, depth)]: an object whose [$mid] is [1] becomes a [URI];
    arrays and other objects are walked, to a depth of 200. *)
Fixpoint revive (depth : nat) (obj : jsval) : jsval :=
  match obj with
  | VArr items =>
      if Nat.ltb 200 depth then obj
      else VArr (map (revive (S depth)) items)
  | VObj props =>
      if Nat.ltb 200 depth then obj
      else
        match lookup "$mid" props with
        | Some (VNum 1) => VUri (URI_revive props)
        | _ =>
            VObj ((fix walk (l : list (string * jsval)) : list (string * jsval) :=
                     match l with
                     | [] => []
                     | (k, x) :: rest => (k, revive (S depth) x) :: walk rest
                     end) props)
        end
  | _ => obj
  end.

Definition parse_revive (text : string) : option jsval :=
  option_map (revive 0) (parse text).

(** *** Typed arrays, buffers and URIs *)

(** [ToUint8] of an integer. *)
Definition ToUint8 (n : Z) : byte :=
  match Byte.of_N (Z.to_N (n mod 256)) with
  | Some b => b
  | None => x00
  end.

(** [Uint8Array.from]: exact on arrays of numbers, booleans and [null];
    elements of other types count as [0] and sources that are not arrays as
    empty, which passes over the coercion of strings and objects to
    numbers. *)
Definition typed_array_from (source : jsval) : option (list byte) :=
  match source with
  | VUndefined | VNull => None
  | VArr items =>
      Some (map (fun x =>
                   match x with
                   | VNum n => ToUint8 n
                   | VBool true => x01
                   | _ => x00
                   end) items)
  | _ => Some []
  end.

(** Strings stand for their UTF-8 bytes, so a buffer is made of a string
    as it is. *)
Definition buffer_of_string (s : string) : VSBuffer := list_byte_of_string s.
Definition string_of_buffer (b : VSBuffer) : string := string_of_list_byte b.

(** [uri.toString()], without the percent-encoding of reserved characters. *)
Definition format_uri (u : URI) : string :=
  scheme u ++ ":"
  ++ (if String.eqb (authority u) "" then "" else "//" ++ authority u)
  ++ path u
  ++ (if String.eqb (query u) "" then "" else "?" ++ query u)
  ++ (if String.eqb (fragment u) "" then "" else "#" ++ fragment u).

#[global] Instance runtime : Runtime := {|
  JSON_stringify := stringify;
  JSON_parse := parse;
  VSBuffer_fromString := buffer_of_string;
  VSBuffer_toString := string_of_buffer;
  Uint8Array_from := typed_array_from;
  URI_toString := format_uri;
  marshalling_parse := parse_revive;
  Schemas_vscodeInteractive := "vscode-interactive";
  Schemas_vscodeInteractiveInput := "vscode-interactive-input"
|}.

(** *** The history store *)

(** Modelled from the spec: the History Store of section 4.1 (the class
    [InteractiveHistoryService] is not part of this file).  Per document an
    ordered log of the submitted texts and a cursor, [None] at the bottom
    boundary. *)
Record Log : Type := {
  entries : list string;
  cursor : option nat
}.

Definition HistoryStore : Type := URI -> Log.

Definition empty_log : Log := {| entries := []; cursor := None |}.

Definition empty_store : HistoryStore := fun _ => empty_log.

Definition store_set (uri : URI) (l : Log) (h : HistoryStore) : HistoryStore :=
  fun uri' => if URI_eqb uri' uri then l else h uri'.

(** Modelled from the spec: [addToHistory] appends the text and resets the
    cursor to the bottom boundary. *)
Definition store_addToHistory (uri : URI) (text : string) (h : HistoryStore)
  : HistoryStore :=
  store_set uri {| entries := entries (h uri) ++ [text]; cursor := None |} h.

(** Modelled from the spec: [getPreviousValue] moves from the bottom
    boundary to the last entry, otherwise one step toward the start; at the
    first entry (or with an empty log) it stays and answers nothing. *)
Definition store_getPreviousValue (uri : URI) (h : HistoryStore)
  : option string * HistoryStore :=
  let log := h uri in
  match cursor log with
  | None =>
      match List.length (entries log) with
      | 0 => (None, h)
      | S i => (nth_error (entries log) i,
                store_set uri {| entries := entries log; cursor := Some i |} h)
      end
  | Some 0 => (None, h)
  | Some (S i) =>
      (nth_error (entries log) i,
       store_set uri {| entries := entries log; cursor := Some i |} h)
  end.

(** Modelled from the spec: [getNextValue] answers nothing at the bottom
    boundary; otherwise it moves one step toward the bottom, and past the
    last entry it sets the cursor to the bottom boundary and answers
    nothing. *)
Definition store_getNextValue (uri : URI) (h : HistoryStore)
  : option string * HistoryStore :=
  let log := h uri in
  match cursor log with
  | None => (None, h)
  | Some i =>
      if Nat.ltb (S i) (List.length (entries log))
      then (nth_error (entries log) (S i),
            store_set uri {| entries := entries log; cursor := Some (S i) |} h)
      else (None, store_set uri {| entries := entries log; cursor := None |} h)
  end.

(** Modelled from the spec: [clearHistory] discards the log of the
    document. *)
Definition store_clearHistory (uri : URI) (h : HistoryStore) : HistoryStore :=
  store_set uri empty_log h.

#[global] Instance history : IInteractiveHistoryService HistoryStore := {|
  addToHistory := store_addToHistory;
  getPreviousValue := store_getPreviousValue;
  getNextValue := store_getNextValue;
  clearHistory := store_clearHistory
|}.

(** *** Notions for reasoning about the writer and the reader *)

(** What may follow the text of a number without changing how it reads:
    anything but a digit, a fraction or an exponent. *)
Definition starts_with_digit (s : string) : bool :=
  match s with
  | EmptyString => false
  | String c _ => match digit_of c with Some _ => true | None => false end
  end.

Definition delimited (rest : string) : Prop :=
  starts_with_digit rest = false /\ continues_number rest = false.

Definition is_digit (c : ascii) : bool :=
  match digit_of c with Some _ => true | None => false end.

(** The characters the text of a value can start with. *)
Definition value_start (c : ascii) : bool :=
  Ascii.eqb c "n" || Ascii.eqb c "t" || Ascii.eqb c "f" || Ascii.eqb c dquote
  || Ascii.eqb c "[" || Ascii.eqb c "{" || Ascii.eqb c "-" || is_digit c.

(** The text of an array after its first element, and of an object after
    its first member: the inner loops of [print]. *)
Fixpoint print_elements (l : list jsval) : string :=
  match l with
  | [] => "]"
  | y :: l' => String "," (print y ++ print_elements l')
  end.

Fixpoint print_members (l : list (string * jsval)) : string :=
  match l with
  | [] => "}"
  | (k, y) :: l' =>
      String "," (String dquote (quote_body k ++ String dquote
                                   (String ":" (print y ++ print_members l'))))
  end.

(** The values that are JSON: neither [undefined] nor a class instance
    anywhere inside. *)
Unset Elimination Schemes.
Inductive plain : jsval -> Prop :=
| plain_null : plain VNull
| plain_bool b : plain (VBool b)
| plain_num n : plain (VNum n)
| plain_str s : plain (VStr s)
| plain_arr items : Forall plain items -> plain (VArr items)
| plain_obj props : Forall (fun kv => plain (snd kv)) props -> plain (VObj props).
Set Elimination Schemes.

(** The reader, given rounds enough, reads [v] off the head of a text that
    starts with the text of [v]. *)
Definition reads_back (v : jsval) : Prop :=
  plain v ->
  forall fuel rest,
    String.length (print v) < fuel -> delimited rest ->
    parse_value fuel (print v ++ rest) = Some (v, rest).

(** The member loop of [serialize]. *)
Fixpoint serialize_members (l : list (string * jsval)) : list (string * jsval) :=
  match l with
  | [] => []
  | (k, VUndefined) :: rest => serialize_members rest
  | (k, x) :: rest => (k, serialize x) :: serialize_members rest
  end.

End Reference.

(** ** Notions the statements speak of *)

(** A live output item and a live output, as [open] gives them back. *)
Definition dto_of_item (ot : OutputItem.t) : OutputItemDto.t :=
  OutputItemDto.make (VStr (OutputItem.mime ot)) (OutputItem.data ot).

Definition dto_of_output (output : CellOutput.t) : OutputDto.t :=
  OutputDto.make (VStr (CellOutput.outputId output))
                 (map dto_of_item (CellOutput.outputs output)).

(** The JSON value of the record [backup] makes of a cell whose metadata
    has the JSON value [metadata]: the key [mine] is there only for a cell
    that has a mime. *)
Definition stored_cell (cell : Cell.t) (metadata : jsval) : jsval :=
  VObj (("kind", VNum (CellKind_value (Cell.cellKind cell)))
        :: ("language", VStr (Cell.language cell))
        :: ("metadata", metadata)
        :: match Cell.mime cell with
           | Some m => [("mine", VStr m)]
           | None => []
           end
        ++ [("outputs", VArr (map controller.backup_output (Cell.outputs cell)));
            ("content", VStr (Cell.getValue cell))]).

(** The JSON value of the metadata of a cell. *)
Definition stored_metadata (cell : Cell.t) : jsval :=
  match JSON_value (Cell.metadata cell) with
  | Some metadata => metadata
  | None => VNull
  end.

(** The JSON value of [{ cells }], which the buffer of a backup holds. *)
Definition stored_document (doc : NotebookDocument.t) : jsval :=
  VObj [("cells",
         VArr (map (fun cell => stored_cell cell (stored_metadata cell))
                   (NotebookDocument.cells doc)))].

(** The cells [open] gives for the buffer [backup] made, when there is
    one. *)
Definition restore_backup {rt : Runtime} (contentOptions : TransientOptions)
    (documents : list NotebookDocument.t) (uri : URI) : list CellDto.t :=
  match controller.backup documents uri with
  | inr buffer =>
      NotebookData.cells
        (data (controller.open contentOptions uri (IdBuffer buffer)))
  | inl _ => []
  end.

(** The value of a property of a truthy value ([get] cannot throw there). *)
Definition field (data : jsval) (k : string) : jsval :=
  match get data k with
  | Normal v => v
  | Throw _ => VUndefined
  end.

(** The notebook identifier with suffix [k] is the resource of an open
    editor. *)
Definition taken {rt : Runtime} (existing : list string) (k : nat) : bool :=
  commands.Set_has existing (URI_toString (commands.mint_notebookUri k)).

(** The call is one of [historyService.addToHistory]. *)
Definition is_addToHistory (c : ServiceCall) : bool :=
  match c with
  | call_addToHistory _ _ => true
  | _ => false
  end.

(** ** Example documents and workbenches *)

(** The cell of section 8 of the specification. *)
Definition python_cell : Cell.t :=
  Cell.make Code "python" (VObj []) None [] "print(1)".

(** The identifiers of the first session. *)
Definition python_uri : URI :=
  URI_from "vscode-interactive" "Interactive-1.interactive".

(** The document of section 8 of the specification: that one cell. *)
Definition python_document : NotebookDocument.t :=
  NotebookDocument.make python_uri [python_cell].

(** A code cell with a mime, metadata and an output of two items. *)
Definition plot_cell : Cell.t :=
  Cell.make Code "python" (VObj [("collapsed", VBool false); ("tags", VArr [VStr "a"])])
    (Some "text/x-python")
    [CellOutput.make "out-1"
       [OutputItem.make "text/plain" [x31; x0a];
        OutputItem.make "image/png" [x89; x50; xff; x00]]]
    "plot(x)".

(** A markup cell. *)
Definition notes_cell : Cell.t :=
  Cell.make Markup "markdown" (VObj []) None [] "# Notes".

(** The document of a second session, with these two cells. *)
Definition plot_uri : URI :=
  URI_from "vscode-interactive" "Interactive-2.interactive".

Definition plot_document : NotebookDocument.t :=
  NotebookDocument.make plot_uri [notes_cell; plot_cell].

(** The editor input of the first session. *)
Definition python_input : InteractiveEditorInput.t :=
  InteractiveEditorInput.create python_uri
    (URI_from "vscode-interactive-input" "InteractiveInput-1").

(** A workbench with the specification's document in the active
    interactive editor, the text [print(2)] in its input, and an empty
    history. *)
Definition python_notebookEditor : NotebookEditorWidget :=
  {| textModel := Some python_document;
     activeKernel := Some {| supportedLanguages := ["python"; "r"] |} |}.

Definition python_control : EditorControl :=
  {| notebookEditor := Some python_notebookEditor;
     codeEditor := Some {| getModel := Some "print(2)" |} |}.

(** The open editors: the first session, an editor without a resource, and
    some editor on [Interactive-3.interactive]. *)
Definition python_editors : list IEditorIdentifier :=
  [{| groupId := 0; editor := InteractiveInput python_input |};
   {| groupId := 0; editor := OtherInput None |};
   {| groupId := 1;
      editor := OtherInput
                  (Some (URI_from "vscode-interactive" "Interactive-3.interactive")) |}].

Definition python_editorService : IEditorService :=
  {| activeControl := Some python_control;
     getEditors := python_editors;
     findEditors := fun uri =>
       filter (fun id =>
                 match EditorInput_resource (editor id) with
                 | Some r => URI_eqb r uri
                 | None => false
                 end) python_editors;
     viewColumnToEditorGroup := fun column =>
       match column with Some c => c | None => 0%Z end |}.

Definition python_workbench : Workbench Reference.HistoryStore :=
  {| editorService := python_editorService;
     historyService := Reference.empty_store |}.

(** The workbench after [interactive.execute] ran on an empty input and the
    user typed [draft]: the last entry of the history is the empty string. *)
Definition draft_workbench : Workbench Reference.HistoryStore :=
  {| editorService :=
       {| activeControl :=
            Some {| notebookEditor := Some python_notebookEditor;
                    codeEditor := Some {| getModel := Some "draft" |} |};
          getEditors := python_editors;
          findEditors := findEditors python_editorService;
          viewColumnToEditorGroup := viewColumnToEditorGroup python_editorService |};
     historyService :=
       Reference.store_addToHistory python_uri "" Reference.empty_store |}.

(** ** The options object of the content provider

    [contentOptions] is one object.  The getter of [options] hands out that
    object, the setter assigns its three fields from the object it is
    given, and every result of [open] refers to it.  Objects live in a
    store and are named by their location, so that two names of one object
    can be told from two objects that look alike. *)

Module options.

(** An options object: the flag, and the two metadata maps by reference. *)
Record OptionsObject : Type := {
  transientOutputs_of : bool;
  transientCellMetadata_of : nat;
  transientDocumentMetadata_of : nat
}.

(** The store: the options objects and the metadata maps
    ([{ [key: string]: boolean }]), each named by its index. *)
Record Store : Type := {
  objects : list OptionsObject;
  maps : list (list (string * bool))
}.

(** Assignment to the element at [l]; a location that names nothing is left
    alone. *)
Fixpoint list_write {A : Type} (l : nat) (x : A) (s : list A) : list A :=
  match s, l with
  | [], _ => []
  | _ :: rest, 0 => x :: rest
  | y :: rest, S l' => y :: list_write l' x rest
  end.

(** [target.field = ...]: [update] applied to the object at [target];
    [None] if [target] names no object. *)
Definition assign (target : nat) (update : OptionsObject -> OptionsObject)
    (s : Store) : option Store :=
  match nth_error (objects s) target with
  | Some o =>
      Some {| objects := list_write target (update o) (objects s);
              maps := maps s |}
  | None => None
  end.

(** [map[key] = value] and the like: the map at [l] becomes [entries]. *)
Definition write_map (l : nat) (entries : list (string * bool)) (s : Store)
  : Store :=
  {| objects := objects s; maps := list_write l entries (maps s) |}.

(** The controller closes over the location of [contentOptions]. *)
Record Controller : Type := { contentOptions : nat }.

(** [const contentOptions = { transientOutputs: true,
    transientCellMetadata: {}, transientDocumentMetadata: {} }]: three new
    objects. *)
Definition construct (s : Store) : Controller * Store :=
  ({| contentOptions := List.length (objects s) |},
   {| objects :=
        objects s
        ++ [{| transientOutputs_of := true;
               transientCellMetadata_of := List.length (maps s);
               transientDocumentMetadata_of := S (List.length (maps s)) |}];
      maps := maps s ++ [[]; []] |}).

(** [get options() { return contentOptions; }] *)
Definition get_options (c : Controller) : nat := contentOptions c.

(** [set options(newOptions)]: three assignments, each reading a field of
    [newOptions] and writing it to [contentOptions].  [None] if a location
    names no object. *)
Definition set_options (c : Controller) (newOptions : nat) (s : Store)
  : option Store :=
  match nth_error (objects s) newOptions with
  | None => None
  | Some new1 =>
      match assign (contentOptions c)
              (fun o => {| transientOutputs_of := transientOutputs_of o;
                           transientCellMetadata_of := transientCellMetadata_of new1;
                           transientDocumentMetadata_of := transientDocumentMetadata_of o |})
              s with
      | None => None
      | Some s1 =>
          match nth_error (objects s1) newOptions with
          | None => None
          | Some new2 =>
              match assign (contentOptions c)
                      (fun o => {| transientOutputs_of := transientOutputs_of o;
                                   transientCellMetadata_of := transientCellMetadata_of o;
                                   transientDocumentMetadata_of :=
                                     transientDocumentMetadata_of new2 |})
                      s1 with
              | None => None
              | Some s2 =>
                  match nth_error (objects s2) newOptions with
                  | None => None
                  | Some new3 =>
                      assign (contentOptions c)
                        (fun o => {| transientOutputs_of := transientOutputs_of new3;
                                     transientCellMetadata_of := transientCellMetadata_of o;
                                     transientDocumentMetadata_of :=
                                       transientDocumentMetadata_of o |})
                        s2
                  end
              end
          end
      end
  end.

(** What reading the options object at [l] shows: its flag and the entries
    of its two maps. *)
Definition snapshot (s : Store) (l : nat) : option TransientOptions :=
  match nth_error (objects s) l with
  | Some o =>
      match nth_error (maps s) (transientCellMetadata_of o),
            nth_error (maps s) (transientDocumentMetadata_of o) with
      | Some cell, Some document =>
          Some {| transientOutputs := transientOutputs_of o;
                  transientCellMetadata := cell;
                  transientDocumentMetadata := document |}
      | _, _ => None
      end
  | None => None
  end.

(** [open] in the store: the result as [controller.open] gives it for the
    options as they are now, and the location its [transientOptions] refers
    to, which is [contentOptions] itself. *)
Definition open {rt : Runtime} (c : Controller) (s : Store) (_uri : URI)
    (_backupId : BackupId) : option (OpenResult * nat) :=
  match snapshot s (contentOptions c) with
  | Some now => Some (controller.open now _uri _backupId, contentOptions c)
  | None => None
  end.

End options.

(** ** More example documents and workbenches *)

(** A backup with a good cell and a [null] where a cell should be. *)
Definition broken_backup : jsval :=
  VObj [("cells", VArr [VObj [("content", VStr "x")]; VNull])].

(** A cell whose metadata has a property without a value. *)
Definition sparse_cell : Cell.t :=
  Cell.make Code "python"
    (VObj [("collapsed", VBool true); ("execution", VUndefined)]) None []
    "1 + 1".

(** The document of that one cell. *)
Definition sparse_document : NotebookDocument.t :=
  NotebookDocument.make python_uri [sparse_cell].

(** The workbench after [python_workbench] opened the session it mints:
    an editor on [Interactive-2.interactive] has joined the others. *)
Definition second_workbench : Workbench Reference.HistoryStore :=
  {| editorService :=
       {| activeControl := Some python_control;
          getEditors :=
            python_editors
            ++ [{| groupId := 0;
                   editor := OtherInput
                               (Some (URI_from "vscode-interactive"
                                        "Interactive-2.interactive")) |}];
          findEditors := fun _ => [];
          viewColumnToEditorGroup := viewColumnToEditorGroup python_editorService |};
     historyService := Reference.empty_store |}.

(** The kernel and the notebook document of the active interactive
    editor. *)
Definition active_notebook {H : Type} (w : Workbench H)
  : option (option INotebookKernel * NotebookDocument.t) :=
  match commands.active w with
  | Some (_, nb, doc, _) => Some (activeKernel nb, doc)
  | None => None
  end.

(** The calls a history command may make. *)
Definition history_call (call : ServiceCall) : bool :=
  match call with
  | call_getPreviousValue _ | call_getNextValue _ | call_setValue _ => true
  | _ => false
  end.

(** A workbench whose active editor is not an interactive one. *)
Definition plain_workbench : Workbench Reference.HistoryStore :=
  {| editorService :=
       {| activeControl :=
            Some {| notebookEditor := None;
                    codeEditor := Some {| getModel := Some "text" |} |};
          getEditors := python_editors;
          findEditors := findEditors python_editorService;
          viewColumnToEditorGroup := viewColumnToEditorGroup python_editorService |};
     historyService := Reference.store_addToHistory python_uri "print(1)"
                         Reference.empty_store |}.

(** A store with the options of a provider and an options object made by
    someone else. *)
Definition two_options : options.Controller * options.Store :=
  let (c, s) := options.construct {| options.objects := []; options.maps := [] |} in
  (c, {| options.objects :=
           options.objects s
           ++ [{| options.transientOutputs_of := false;
                  options.transientCellMetadata_of := 2;
                  options.transientDocumentMetadata_of := 3 |}];
         options.maps := options.maps s ++ [[("custom", true)]; []] |}).

(** What reading that other object shows. *)
Definition custom_options : TransientOptions :=
  {| transientOutputs := false;
     transientCellMetadata := [("custom", true)];
     transientDocumentMetadata := [] |}.

(** * Properties *)

(** ** Induction over values *)

Definition jsval_ind (P : jsval -> Prop)
    (Hundefined : P VUndefined) (Hnull : P VNull)
    (Hbool : forall b, P (VBool b)) (Hnum : forall n, P (VNum n))
    (Hstr : forall s, P (VStr s))
    (Harr : forall items, Forall P items -> P (VArr items))
    (Hobj : forall props, Forall (fun kv => P (snd kv)) props -> P (VObj props))
    (Huri : forall u, P (VUri u))
  : forall v, P v :=
  fix self (v : jsval) : P v :=
    match v with
    | VUndefined => Hundefined
    | VNull => Hnull
    | VBool b => Hbool b
    | VNum n => Hnum n
    | VStr s => Hstr s
    | VArr items =>
        Harr items
          ((fix all (l : list jsval) : Forall P l :=
              match l with
              | [] => Forall_nil P
              | x :: rest => Forall_cons x (self x) (all rest)
              end) items)
    | VObj props =>
        Hobj props
          ((fix all (l : list (string * jsval))
              : Forall (fun kv => P (snd kv)) l :=
              match l with
              | [] => Forall_nil _
              | kv :: rest => Forall_cons kv (self (snd kv)) (all rest)
              end) props)
    | VUri u => Huri u
    end.

(** ** Helpers on the monad and on [JSON_value] *)

Lemma mapM_map_Normal {A B C : Type} (f : B -> completion C) (g : A -> B)
    (h : A -> C) (l : list A) :
  (forall x, In x l -> f (g x) = Normal (h x)) ->
  mapM f (map g l) = Normal (map h l).
Proof.
  induction l as [|x l IH]; intros Hf; simpl.
  - reflexivity.
  - rewrite Hf by (left; reflexivity). simpl.
    rewrite IH by (intros y Hy; apply Hf; right; exact Hy).
    reflexivity.
Qed.

Lemma JSON_value_VArr items :
  JSON_value (VArr items) = option_map VArr (JSON_elements items).
Proof. reflexivity. Qed.

Lemma JSON_value_VObj props :
  JSON_value (VObj props) = option_map VObj (JSON_members props).
Proof. reflexivity. Qed.

(** A list of values that are their own JSON value. *)
Lemma JSON_elements_fixed (l : list jsval) :
  Forall (fun x => JSON_value x = Some x) l -> JSON_elements l = Some l.
Proof.
  induction 1 as [|x l Hx _ IH]; cbn [JSON_elements].
  - reflexivity.
  - rewrite IH.
    destruct x; first [discriminate Hx | rewrite Hx; reflexivity].
Qed.

Lemma JSON_elements_map {A : Type} (f g : A -> jsval) (l : list A) :
  (forall x, In x l -> JSON_value (f x) = Some (g x)) ->
  JSON_elements (map f l) = Some (map g l).
Proof.
  induction l as [|x l IH]; intros Hf; cbn [JSON_elements map].
  - reflexivity.
  - rewrite IH by (intros y Hy; apply Hf; right; exact Hy).
    pose proof (Hf x (or_introl eq_refl)) as Hx.
    destruct (f x); first [discriminate Hx | rewrite Hx; reflexivity].
Qed.

(** ** The content provider *)

Section ControllerProperties.
Context {rt : Runtime}.

Lemma JSON_value_Array_from bytes :
  JSON_value (Array_from bytes) = Some (Array_from bytes).
Proof.
  unfold Array_from. rewrite JSON_value_VArr, JSON_elements_fixed; [reflexivity|].
  apply Forall_forall. intros x Hx. apply in_map_iff in Hx.
  destruct Hx as [b [<- _]]. reflexivity.
Qed.

Lemma JSON_value_backup_item ot :
  JSON_value (controller.backup_item ot) = Some (controller.backup_item ot).
Proof.
  unfold controller.backup_item.
  rewrite JSON_value_VObj. cbn [JSON_members].
  change (JSON_value (VStr (OutputItem.mime ot)))
    with (Some (VStr (OutputItem.mime ot))).
  pose proof (JSON_value_Array_from (OutputItem.data ot)) as Hd.
  unfold Array_from in *. rewrite Hd. reflexivity.
Qed.

Lemma JSON_value_backup_output output :
  JSON_value (controller.backup_output output)
  = Some (controller.backup_output output).
Proof.
  unfold controller.backup_output.
  rewrite JSON_value_VObj. cbn [JSON_members].
  change (JSON_value (VStr (CellOutput.outputId output)))
    with (Some (VStr (CellOutput.outputId output))).
  rewrite JSON_value_VArr, JSON_elements_fixed; [reflexivity|].
  apply Forall_forall. intros x Hx. apply in_map_iff in Hx.
  destruct Hx as [ot [<- _]]. apply JSON_value_backup_item.
Qed.

Lemma JSON_value_backup_cell cell metadata :
  JSON_value (Cell.metadata cell) = Some metadata ->
  JSON_value (controller.backup_cell cell) = Some (stored_cell cell metadata).
Proof.
  intros Hm. unfold controller.backup_cell, stored_cell.
  rewrite JSON_value_VObj. cbn [JSON_members].
  change (JSON_value (VNum (CellKind_value (Cell.cellKind cell))))
    with (Some (VNum (CellKind_value (Cell.cellKind cell)))).
  change (JSON_value (VStr (Cell.language cell)))
    with (Some (VStr (Cell.language cell))).
  change (JSON_value (VStr (Cell.getValue cell)))
    with (Some (VStr (Cell.getValue cell))).
  assert (Ho : JSON_value (VArr (map controller.backup_output (Cell.outputs cell)))
               = Some (VArr (map controller.backup_output (Cell.outputs cell)))).
  { rewrite JSON_value_VArr, JSON_elements_fixed; [reflexivity|].
    apply Forall_forall. intros x Hx. apply in_map_iff in Hx.
    destruct Hx as [o [<- _]]. apply JSON_value_backup_output. }
  rewrite Ho.
  destruct (Cell.metadata cell) eqn:Emd; try discriminate Hm;
    rewrite Hm; destruct (Cell.mime cell); reflexivity.
Qed.

Lemma JSON_value_backup_document doc :
  Forall (fun cell => JSON_value (Cell.metadata cell) <> None)
         (NotebookDocument.cells doc) ->
  JSON_value
    (VObj [("cells", VArr (map controller.backup_cell (NotebookDocument.cells doc)))])
  = Some (stored_document doc).
Proof.
  intros Hmd. unfold stored_document.
  rewrite JSON_value_VObj. cbn [JSON_members].
  rewrite JSON_value_VArr.
  rewrite (JSON_elements_map controller.backup_cell
             (fun cell => stored_cell cell (stored_metadata cell))).
  - reflexivity.
  - intros cell Hin. apply JSON_value_backup_cell.
    rewrite Forall_forall in Hmd. specialize (Hmd cell Hin).
    unfold stored_metadata. destruct (JSON_value (Cell.metadata cell)); congruence.
Qed.

Lemma open_item_backup_item ot :
  Uint8Array_roundtrip rt ->
  controller.open_item (controller.backup_item ot) = Normal (dto_of_item ot).
Proof.
  intros Hu. unfold controller.open_item, controller.backup_item. cbn.
  rewrite Hu. reflexivity.
Qed.

Lemma open_output_backup_output output :
  Uint8Array_roundtrip rt ->
  controller.open_output (controller.backup_output output)
  = Normal (dto_of_output output).
Proof.
  intros Hu. unfold controller.open_output, controller.backup_output. cbn.
  rewrite (mapM_map_Normal _ _ dto_of_item).
  - reflexivity.
  - intros ot _. apply open_item_backup_item, Hu.
Qed.

(** What [open] makes of a stored cell: the mime is read under the key
    [mime], which the record does not have. *)
Lemma open_cell_stored_cell cell metadata :
  Uint8Array_roundtrip rt ->
  controller.open_cell (stored_cell cell metadata)
  = Normal (CellDto.make (VStr (Cell.getValue cell)) (VStr (Cell.language cell))
              (VNum (CellKind_value (Cell.cellKind cell))) VUndefined
              (map dto_of_output (Cell.outputs cell)) metadata).
Proof.
  intros Hu. unfold controller.open_cell, stored_cell.
  destruct (Cell.mime cell); cbn;
    rewrite (mapM_map_Normal _ _ dto_of_output);
    first [ reflexivity
          | intros o _; apply open_output_backup_output, Hu ].
Qed.

Lemma open_backup_document contentOptions uri documents doc :
  JSON_roundtrip rt -> VSBuffer_roundtrip rt -> Uint8Array_roundtrip rt ->
  controller.find_document documents uri = Some doc ->
  Forall (fun cell => JSON_value (Cell.metadata cell) <> None)
         (NotebookDocument.cells doc) ->
  exists buffer,
    controller.backup documents uri = inr buffer /\
    controller.open contentOptions uri (IdBuffer buffer)
    = {| data :=
           NotebookData.make (VObj [])
             (map (fun cell =>
                     CellDto.make (VStr (Cell.getValue cell))
                       (VStr (Cell.language cell))
                       (VNum (CellKind_value (Cell.cellKind cell))) VUndefined
                       (map dto_of_output (Cell.outputs cell))
                       (stored_metadata cell))
                  (NotebookDocument.cells doc));
         transientOptions := contentOptions |}.
Proof.
  intros Hj Hb Hu Hfind Hmd.
  unfold controller.backup. rewrite Hfind.
  eexists. split; [reflexivity|].
  unfold controller.open, controller.open_try.
  rewrite Hb, (Hj _ _ (JSON_value_backup_document doc Hmd)).
  unfold stored_document. cbn [bind get lookup String.eqb Ascii.eqb Bool.eqb js_map].
  rewrite (mapM_map_Normal _ _
             (fun cell =>
                CellDto.make (VStr (Cell.getValue cell))
                  (VStr (Cell.language cell))
                  (VNum (CellKind_value (Cell.cellKind cell))) VUndefined
                  (map dto_of_output (Cell.outputs cell))
                  (stored_metadata cell))).
  - reflexivity.
  - intros cell _. apply open_cell_stored_cell, Hu.
Qed.

(** [find] answers a listed document for its own URI, when no other listed
    document has the string of that URI. *)
Lemma find_document_listed documents doc :
  In doc documents ->
  (forall other,
     In other documents ->
     URI_toString (NotebookDocument.uri other)
     = URI_toString (NotebookDocument.uri doc) -> other = doc) ->
  controller.find_document documents (NotebookDocument.uri doc) = Some doc.
Proof.
  unfold controller.find_document.
  induction documents as [|d l IH]; intros Hin Hunique; [destruct Hin|].
  cbn [find].
  destruct (String.eqb (URI_toString (NotebookDocument.uri d))
                       (URI_toString (NotebookDocument.uri doc))) eqn:E.
  - apply String.eqb_eq in E. f_equal.
    apply Hunique; [left; reflexivity | exact E].
  - destruct Hin as [-> | Hin]; [rewrite String.eqb_refl in E; discriminate E|].
    apply IH; [exact Hin|].
    intros other Hother. apply Hunique. right. exact Hother.
Qed.

End ControllerProperties.

(** ** The reference implementations keep what the theorems ask

    The reference reader reads back what the reference writer wrote. *)

Module ReferenceFacts.
Import Reference.

Lemma append_assoc (a b c : string) : (a ++ b) ++ c = a ++ (b ++ c).
Proof. induction a as [|x a IH]; simpl; [reflexivity | now rewrite IH]. Qed.

Lemma append_empty_r (a : string) : a ++ "" = a.
Proof. induction a as [|x a IH]; simpl; [reflexivity | now rewrite IH]. Qed.

Lemma length_append (a b : string) :
  String.length (a ++ b) = String.length a + String.length b.
Proof. induction a as [|x a IH]; simpl; [reflexivity | now rewrite IH]. Qed.

(** Splitting a character into its bits, to decide a property of all
    characters by computation. *)
Ltac each_char c := destruct c as [[] [] [] [] [] [] [] []].

(** *** Strings *)

Lemma parse_string_body_escape (c : ascii) (t : string) :
  parse_string_body (escape c ++ t)
  = match parse_string_body t with
    | Some (str, rest) => Some (String c str, rest)
    | None => None
    end.
Proof. each_char c; reflexivity. Qed.

Lemma parse_string_body_quote_body (s rest : string) :
  parse_string_body (quote_body s ++ String dquote rest) = Some (s, rest).
Proof.
  induction s as [|c s IH]; cbn [quote_body].
  - reflexivity.
  - rewrite append_assoc, parse_string_body_escape, IH. reflexivity.
Qed.

(** *** Numbers *)

Lemma parse_uint_string_of_uint (d : Decimal.uint) (rest : string) :
  starts_with_digit rest = false ->
  parse_uint (NilEmpty.string_of_uint d ++ rest) = (d, rest).
Proof.
  intros Hrest. induction d; cbn [NilEmpty.string_of_uint append parse_uint];
    try (cbn [digit_of Ascii.eqb Bool.eqb]; rewrite IHd; reflexivity).
  destruct rest as [|c r]; [reflexivity|].
  cbn [parse_uint]. cbn [starts_with_digit] in Hrest.
  destruct (digit_of c); [discriminate | reflexivity].
Qed.

Lemma nzhead_not_D0 (d u : Decimal.uint) : Decimal.nzhead d <> Decimal.D0 u.
Proof. induction d; simpl; try discriminate; assumption. Qed.

Lemma to_uint_leading (p : positive) :
  match Pos.to_uint p with
  | Decimal.Nil | Decimal.D0 _ => False
  | _ => True
  end.
Proof.
  pose proof (DecimalPos.Unsigned.to_of (Pos.to_uint p)) as H.
  rewrite DecimalPos.Unsigned.of_to in H. cbn [N.to_uint] in H.
  pose proof (DecimalPos.Unsigned.to_uint_nonzero p) as Hz.
  destruct (Pos.to_uint p) as [|d| | | | | | | | |] eqn:E; try exact I.
  - discriminate H.
  - unfold Decimal.unorm in H. cbn [Decimal.nzhead] in H.
    destruct (Decimal.nzhead d) eqn:En; try discriminate H.
    + injection H as H. subst d. apply Hz. reflexivity.
    + exact (nzhead_not_D0 _ _ En).
Qed.

Lemma parse_N_to_uint (n : N) (rest : string) :
  delimited rest ->
  parse_N (NilEmpty.string_of_uint (N.to_uint n) ++ rest) = Some (n, rest).
Proof.
  intros [Hd Hc]. unfold parse_N.
  rewrite parse_uint_string_of_uint by exact Hd.
  destruct n as [|p].
  - cbn. rewrite Hc. reflexivity.
  - cbn [N.to_uint]. unfold N.of_uint.
    pose proof (to_uint_leading p) as Hl.
    pose proof (DecimalPos.Unsigned.of_to p) as Hof.
    revert Hl Hof. destruct (Pos.to_uint p); intros Hl Hof;
      try contradiction; rewrite Hc, Hof; reflexivity.
Qed.

Lemma string_of_uint_head (n : N) :
  exists c t, NilEmpty.string_of_uint (N.to_uint n) = String c t /\ is_digit c = true.
Proof.
  destruct n as [|p].
  - exists "0"%char, EmptyString. split; reflexivity.
  - cbn [N.to_uint]. pose proof (to_uint_leading p) as Hl.
    destruct (Pos.to_uint p); try contradiction;
      cbn [NilEmpty.string_of_uint]; eexists _, _; split; reflexivity.
Qed.

Lemma is_digit_not_minus (c : ascii) :
  is_digit c = true -> Ascii.eqb c "-" = false.
Proof. each_char c; intros H; try reflexivity; discriminate H. Qed.

Lemma parse_number_print_number (n : Z) (rest : string) :
  delimited rest ->
  parse_number (print_number n ++ rest) = Some (VNum n, rest).
Proof.
  intros Hrest. unfold print_number.
  destruct (Z.ltb_spec n 0) as [Hn|Hn].
  - cbn [append]. cbn [parse_number Ascii.eqb Bool.eqb].
    rewrite parse_N_to_uint by exact Hrest.
    do 2 f_equal. f_equal. lia.
  - cbn [append].
    destruct (string_of_uint_head (Z.abs_N n)) as [c [t [E Hc]]].
    pose proof (parse_N_to_uint (Z.abs_N n) rest Hrest) as HN.
    rewrite E in *. cbn [append] in *. cbn [parse_number].
    rewrite (is_digit_not_minus c Hc), HN.
    do 2 f_equal. f_equal. lia.
Qed.

(** *** The first character of a value *)

Lemma parse_value_number (fuel : nat) (c : ascii) (r : string) :
  Ascii.eqb c "-" || is_digit c = true ->
  parse_value (S fuel) (String c r) = parse_number (String c r).
Proof. each_char c; intros H; try discriminate H; reflexivity. Qed.

Lemma parse_value_string (fuel : nat) (t : string) :
  parse_value (S fuel) (String dquote t)
  = match parse_string_body t with
    | Some (str, rest) => Some (VStr str, rest)
    | None => None
    end.
Proof. reflexivity. Qed.

Lemma parse_value_array (fuel : nat) (c : ascii) (r : string) :
  value_start c = true ->
  parse_value (S fuel) (String "[" (String c r))
  = match parse_value fuel (String c r) with
    | Some (x, rest1) =>
        match parse_elements fuel rest1 with
        | Some (xs, rest2) => Some (VArr (x :: xs), rest2)
        | None => None
        end
    | None => None
    end.
Proof. each_char c; intros H; try discriminate H; reflexivity. Qed.

Lemma parse_value_object (fuel : nat) (r : string) :
  parse_value (S fuel) (String "{" (String dquote r))
  = match parse_member fuel (String dquote r) with
    | Some (m, rest1) =>
        match parse_members fuel rest1 with
        | Some (ms, rest2) => Some (VObj (m :: ms), rest2)
        | None => None
        end
    | None => None
    end.
Proof. reflexivity. Qed.

Lemma parse_elements_comma (fuel : nat) (r : string) :
  parse_elements (S fuel) (String "," r)
  = match parse_value fuel r with
    | Some (x, rest1) =>
        match parse_elements fuel rest1 with
        | Some (xs, rest2) => Some (x :: xs, rest2)
        | None => None
        end
    | None => None
    end.
Proof. reflexivity. Qed.

Lemma parse_members_comma (fuel : nat) (r : string) :
  parse_members (S fuel) (String "," r)
  = match parse_member fuel r with
    | Some (m, rest1) =>
        match parse_members fuel rest1 with
        | Some (ms, rest2) => Some (m :: ms, rest2)
        | None => None
        end
    | None => None
    end.
Proof. reflexivity. Qed.

Lemma parse_member_key (fuel : nat) (k rest : string) :
  parse_member (S fuel) (String dquote (quote_body k ++ String dquote (String ":" rest)))
  = match parse_value fuel rest with
    | Some (x, rest3) => Some ((k, x), rest3)
    | None => None
    end.
Proof.
  cbn [parse_member skip_ws].
  change (is_ws dquote) with false. cbn iota.
  change (Ascii.eqb dquote dquote) with true. cbn iota.
  rewrite parse_string_body_quote_body. reflexivity.
Qed.

(** *** The text of arrays and objects *)

Lemma print_VArr_cons x xs :
  print (VArr (x :: xs)) = String "[" (print x ++ print_elements xs).
Proof. reflexivity. Qed.

Lemma print_VObj_cons k x ms :
  print (VObj ((k, x) :: ms))
  = String "{" (String dquote (quote_body k ++ String dquote
                                 (String ":" (print x ++ print_members ms)))).
Proof.
  cbn [print]. unfold quote. cbn [append]. rewrite append_assoc.
  cbn [append]. do 6 f_equal.
  induction ms as [|[k' y] ms IH]; [reflexivity|].
  cbn [print_members]. rewrite <- IH, append_assoc. reflexivity.
Qed.

(** *** Reading back what was written *)

Lemma print_number_head (n : Z) :
  exists c r, print_number n = String c r
              /\ Ascii.eqb c "-" || is_digit c = true.
Proof.
  unfold print_number. destruct (Z.ltb n 0).
  - eexists _, _. split; reflexivity.
  - destruct (string_of_uint_head (Z.abs_N n)) as [c [t [E Hc]]].
    exists c, t. split; [exact E|]. rewrite Hc. apply orb_true_r.
Qed.

Lemma print_head (v : jsval) :
  plain v -> exists c r, print v = String c r /\ value_start c = true.
Proof.
  destruct 1 as [ | [] | n | s | items _ | props _ ];
    try (eexists _, _; split; reflexivity).
  destruct (print_number_head n) as [c [r [E Hc]]].
  exists c, r. split; [exact E|].
  unfold value_start. rewrite <- !orb_assoc.
  rewrite Hc. rewrite !orb_true_r. reflexivity.
Qed.

Lemma delimited_empty : delimited "".
Proof. split; reflexivity. Qed.

Lemma delimited_elements (l : list jsval) (rest : string) :
  delimited (print_elements l ++ rest).
Proof. destruct l; split; reflexivity. Qed.

Lemma delimited_members (l : list (string * jsval)) (rest : string) :
  delimited (print_members l ++ rest).
Proof. destruct l as [|[k y] l]; split; reflexivity. Qed.

Lemma parse_elements_print_elements (xs : list jsval) :
  Forall reads_back xs -> Forall plain xs ->
  forall fuel rest,
    String.length (print_elements xs) <= fuel ->
    parse_elements fuel (print_elements xs ++ rest) = Some (xs, rest).
Proof.
  induction xs as [|x xs IH]; intros Hall Hplain fuel rest Hf;
    (destruct fuel as [|fuel]; [cbn in Hf; lia|]).
  - reflexivity.
  - inversion Hall as [|? ? Hx Hxs]; inversion Hplain as [|? ? Px Pxs]; subst.
    cbn [print_elements String.length] in Hf. rewrite length_append in Hf.
    assert (0 < String.length (print_elements xs)) by (destruct xs; cbn; lia).
    cbn [print_elements append]. rewrite append_assoc, parse_elements_comma.
    rewrite (Hx Px) by (try apply delimited_elements; lia).
    rewrite IH by (assumption || lia). reflexivity.
Qed.

Lemma parse_members_print_members (ms : list (string * jsval)) :
  Forall (fun kv => reads_back (snd kv)) ms ->
  Forall (fun kv => plain (snd kv)) ms ->
  forall fuel rest,
    String.length (print_members ms) <= fuel ->
    parse_members fuel (print_members ms ++ rest) = Some (ms, rest).
Proof.
  induction ms as [|[k x] ms IH]; intros Hall Hplain fuel rest Hf;
    (destruct fuel as [|fuel]; [cbn in Hf; lia|]).
  - reflexivity.
  - inversion Hall as [|? ? Hx Hxs]; inversion Hplain as [|? ? Px Pxs]; subst.
    cbn [snd] in Hx, Px.
    cbn [print_members String.length] in Hf.
    rewrite length_append in Hf. cbn [String.length] in Hf.
    rewrite length_append in Hf.
    assert (0 < String.length (print_members ms))
      by (destruct ms as [|[] ?]; cbn; lia).
    cbn [print_members append]. rewrite parse_members_comma.
    rewrite append_assoc. cbn [append]. rewrite append_assoc.
    destruct fuel as [|fuel]; [lia|].
    rewrite parse_member_key.
    rewrite (Hx Px) by (try apply delimited_members; lia).
    rewrite IH by (assumption || lia). reflexivity.
Qed.

Lemma parse_value_print (v : jsval) : reads_back v.
Proof.
  induction v as [ | | b | n | s | items IH | props IH | u ] using jsval_ind;
    intros Hp fuel rest Hf Hd; inversion Hp; subst;
    (destruct fuel as [|fuel]; [lia|]).
  - reflexivity.
  - destruct b; reflexivity.
  - destruct (print_number_head n) as [c [r [E Hc]]].
    cbn [print]. pose proof (parse_number_print_number n rest Hd) as Hn.
    rewrite E in *. cbn [append] in *.
    rewrite parse_value_number by exact Hc. exact Hn.
  - cbn [print]. unfold quote. cbn [append]. rewrite append_assoc.
    cbn [append]. rewrite parse_value_string, parse_string_body_quote_body.
    reflexivity.
  - destruct items as [|x xs]; [reflexivity|].
    match goal with Hpl : Forall plain _ |- _ =>
      inversion Hpl as [|? ? Px Pxs]; subst end.
    inversion IH as [|? ? Hx Hxs]; subst.
    rewrite print_VArr_cons in *. cbn [String.length] in Hf.
    rewrite length_append in Hf.
    assert (0 < String.length (print_elements xs)) by (destruct xs; cbn; lia).
    cbn [append]. rewrite append_assoc.
    pose proof (Hx Px fuel (print_elements xs ++ rest)) as Hread.
    destruct (print_head x Px) as [c [r [E Hc]]].
    rewrite E in *. cbn [append] in *.
    rewrite parse_value_array by exact Hc.
    rewrite Hread by (try apply delimited_elements; lia).
    rewrite parse_elements_print_elements by (assumption || lia).
    reflexivity.
  - destruct props as [|[k x] ms]; [reflexivity|].
    match goal with Hpl : Forall _ (_ :: _) |- _ =>
      inversion Hpl as [|? ? Px Pxs]; subst end.
    inversion IH as [|? ? Hx Hxs]; subst. cbn [snd] in Hx, Px.
    rewrite print_VObj_cons in *. cbn [String.length] in Hf.
    rewrite length_append in Hf. cbn [String.length] in Hf.
    rewrite length_append in Hf.
    assert (0 < String.length (print_members ms))
      by (destruct ms as [|[] ?]; cbn; lia).
    cbn [append]. rewrite append_assoc. cbn [append]. rewrite append_assoc.
    rewrite parse_value_object.
    destruct fuel as [|fuel]; [lia|].
    rewrite parse_member_key.
    rewrite (Hx Px) by (try apply delimited_members; lia).
    rewrite parse_members_print_members by (assumption || lia).
    reflexivity.
Qed.

Lemma parse_print (v : jsval) : plain v -> parse (print v) = Some v.
Proof.
  intros Hp. unfold parse.
  assert (Hf : String.length (print v) < S (S (String.length (print v))))
    by lia.
  pose proof (parse_value_print v Hp _ "" Hf delimited_empty) as H.
  rewrite append_empty_r in H. rewrite H. reflexivity.
Qed.

(** *** The reference runtime keeps the three laws *)

Lemma serialize_VObj props :
  serialize (VObj props) = VObj (serialize_members props).
Proof. reflexivity. Qed.

Lemma JSON_value_serialize (v : jsval) :
  forall j, JSON_value v = Some j -> serialize v = j /\ plain j.
Proof.
  induction v as [ | | b | n | s | items IH | props IH | u ] using jsval_ind;
    intros j Hj; try discriminate Hj;
    try (injection Hj as <-; split; [reflexivity | constructor]).
  - rewrite JSON_value_VArr in Hj.
    destruct (JSON_elements items) as [js|] eqn:E; [|discriminate Hj].
    injection Hj as <-. cbn [serialize].
    enough (map serialize items = js /\ Forall plain js) as [-> Hp]
      by (split; [reflexivity | constructor; exact Hp]).
    revert js E. induction IH as [|x l Hx _ IHl]; intros js E.
    + injection E as <-. split; constructor.
    + cbn [JSON_elements] in E.
      destruct (JSON_elements l) as [js'|]; [|destruct x; try discriminate E;
        destruct (JSON_value _); discriminate E].
      destruct (IHl js' eq_refl) as [El Hl].
      destruct x; try discriminate E;
        try (injection E as <-; cbn [map]; rewrite El; split;
             [reflexivity | constructor; [constructor | exact Hl]]);
        match type of E with
        | match JSON_value ?x with _ => _ end = _ =>
            destruct (JSON_value x) as [jx|] eqn:Ex; [|discriminate E];
            destruct (Hx jx eq_refl) as [Es Hpx];
            injection E as <-; cbn [map]; rewrite El, Es; split;
            [reflexivity | constructor; assumption]
        end.
  - rewrite JSON_value_VObj in Hj.
    destruct (JSON_members props) as [js|] eqn:E; [|discriminate Hj].
    injection Hj as <-. rewrite serialize_VObj.
    enough (serialize_members props = js
            /\ Forall (fun kv => plain (snd kv)) js) as [-> Hp]
      by (split; [reflexivity | constructor; exact Hp]).
    revert js E. induction IH as [|[k x] l Hx _ IHl]; intros js E.
    + injection E as <-. split; constructor.
    + cbn [snd] in Hx. cbn [JSON_members] in E.
      destruct x; try (apply IHl; exact E);
        match type of E with
        | match JSON_value ?x with _ => _ end = _ =>
            destruct (JSON_value x) as [jx|] eqn:Ex; [|discriminate E];
            destruct (JSON_members l) as [js'|]; [|discriminate E];
            destruct (Hx jx eq_refl) as [Es Hpx];
            destruct (IHl js' eq_refl) as [El Hl];
            injection E as <-; cbn [serialize_members]; rewrite El, Es; split;
            [reflexivity | constructor; assumption]
        end.
Qed.

Lemma runtime_JSON_roundtrip : JSON_roundtrip runtime.
Proof.
  intros v j Hj. cbn [JSON_parse JSON_stringify runtime]. unfold stringify.
  destruct (JSON_value_serialize v j Hj) as [-> Hp].
  apply parse_print, Hp.
Qed.

Lemma runtime_VSBuffer_roundtrip : VSBuffer_roundtrip runtime.
Proof. intros v. apply string_of_list_byte_of_string. Qed.

Lemma ToUint8_of_byte (b : byte) : ToUint8 (Z.of_N (Byte.to_N b)) = b.
Proof. destruct b; reflexivity. Qed.

Lemma runtime_Uint8Array_roundtrip : Uint8Array_roundtrip runtime.
Proof.
  intros bytes. cbn [Uint8Array_from runtime]. unfold Array_from.
  cbn [typed_array_from]. rewrite map_map. f_equal.
  induction bytes as [|b l IH]; cbn [map]; [reflexivity|].
  rewrite ToUint8_of_byte, IH. reflexivity.
Qed.

End ReferenceFacts.

(** ** Backup and restore *)

(** C1. Backup then restore gives back the cells: for a document [doc]
    that the notebook service lists, and that is the only listed document
    with the string of its URI, [backup] for the URI of [doc] answers a
    buffer, and [open] of that buffer has, cell by cell and in the same
    order, the kind, language, source text and outputs (output id, and the
    mime and bytes of every item) of [doc].  The runtime is asked for its
    round trips (JSON, buffer, typed array) and the cell metadata for being
    JSON data; the metadata and the transient options are not compared. *)
Theorem backup_open_roundtrip {rt : Runtime} (contentOptions : TransientOptions)
    (documents : list NotebookDocument.t) (doc : NotebookDocument.t) :
  JSON_roundtrip rt -> VSBuffer_roundtrip rt -> Uint8Array_roundtrip rt ->
  In doc documents ->
  (forall other,
     In other documents ->
     URI_toString (NotebookDocument.uri other)
     = URI_toString (NotebookDocument.uri doc) -> other = doc) ->
  Forall (fun cell => JSON_value (Cell.metadata cell) <> None)
         (NotebookDocument.cells doc) ->
  exists buffer,
    controller.backup documents (NotebookDocument.uri doc) = inr buffer /\
    let restored :=
      NotebookData.cells
        (data (controller.open contentOptions (NotebookDocument.uri doc)
                 (IdBuffer buffer))) in
    map CellDto.cellKind restored
    = map (fun cell => VNum (CellKind_value (Cell.cellKind cell)))
          (NotebookDocument.cells doc) /\
    map CellDto.language restored
    = map (fun cell => VStr (Cell.language cell)) (NotebookDocument.cells doc) /\
    map CellDto.source restored
    = map (fun cell => VStr (Cell.getValue cell)) (NotebookDocument.cells doc) /\
    map CellDto.outputs restored
    = map (fun cell => map dto_of_output (Cell.outputs cell))
          (NotebookDocument.cells doc).
Proof.
  intros Hj Hb Hu Hin Hunique Hmd.
  pose proof (find_document_listed documents doc Hin Hunique) as Hfind.
  destruct (open_backup_document contentOptions (NotebookDocument.uri doc)
              documents doc Hj Hb Hu Hfind Hmd) as [buffer [Hbackup Hopen]].
  exists buffer. split; [exact Hbackup|].
  cbv zeta. rewrite Hopen. cbn [data NotebookData.cells].
  rewrite !map_map. cbn [CellDto.cellKind CellDto.language CellDto.source
                         CellDto.outputs].
  repeat split; reflexivity.
Qed.

(** The document of the specification, listed after the document of
    another session, goes through the reference runtime: the backup for its
    URI is that of its own cell, which comes back with kind [Code] (the
    number 2), language [python], source [print(1)] and no outputs. *)
Lemma backup_open_roundtrip_witness :
  exists buffer,
    controller.backup (rt := Reference.runtime)
      [plot_document; python_document] python_uri
    = inr buffer /\
    let restored :=
      NotebookData.cells
        (data (controller.open (rt := Reference.runtime) contentOptions0
                 python_uri (IdBuffer buffer))) in
    map CellDto.cellKind restored = [VNum 2] /\
    map CellDto.language restored = [VStr "python"] /\
    map CellDto.source restored = [VStr "print(1)"] /\
    map CellDto.outputs restored = [[]].
Proof.
  apply (backup_open_roundtrip (rt := Reference.runtime) contentOptions0
           [plot_document; python_document] python_document).
  - apply ReferenceFacts.runtime_JSON_roundtrip.
  - apply ReferenceFacts.runtime_VSBuffer_roundtrip.
  - apply ReferenceFacts.runtime_Uint8Array_roundtrip.
  - right. left. reflexivity.
  - intros other [<- | [<- | []]] E.
    + vm_compute in E. discriminate E.
    + reflexivity.
  - repeat constructor; discriminate.
Defined.

(** The same, by running the model on the second document: kinds,
    languages, sources, output bytes and metadata are back, the mime is
    not. *)
Example plot_document_restored :
  restore_backup (rt := Reference.runtime) contentOptions0
    [python_document; plot_document] plot_uri
  = [CellDto.make (VStr "# Notes") (VStr "markdown") (VNum 1) VUndefined []
       (VObj []);
     CellDto.make (VStr "plot(x)") (VStr "python") (VNum 2) VUndefined
       [OutputDto.make (VStr "out-1")
          [OutputItemDto.make (VStr "text/plain") [x31; x0a];
           OutputItemDto.make (VStr "image/png") [x89; x50; xff; x00]]]
       (VObj [("collapsed", VBool false); ("tags", VArr [VStr "a"])])].
Proof. vm_compute. reflexivity. Qed.

(** Whatever mime a cell has, the restored cell has none: [backup] writes
    it under the key [mine] and [open] reads the key [mime]. *)
Lemma backup_open_mime {rt : Runtime} (contentOptions : TransientOptions)
    (documents : list NotebookDocument.t) (uri : URI) (doc : NotebookDocument.t) :
  JSON_roundtrip rt -> VSBuffer_roundtrip rt -> Uint8Array_roundtrip rt ->
  controller.find_document documents uri = Some doc ->
  Forall (fun cell => JSON_value (Cell.metadata cell) <> None)
         (NotebookDocument.cells doc) ->
  Forall (fun restored => CellDto.mime restored = VUndefined)
         (restore_backup contentOptions documents uri).
Proof.
  intros Hj Hb Hu Hfind Hmd. unfold restore_backup.
  destruct (open_backup_document contentOptions uri documents doc
              Hj Hb Hu Hfind Hmd) as [buffer [Hbackup Hopen]].
  rewrite Hbackup, Hopen. cbn [data NotebookData.cells].
  apply Forall_forall. intros restored Hin. apply in_map_iff in Hin.
  destruct Hin as [cell [<- _]]. reflexivity.
Qed.

(** C2. The mime of a cell does not come back: the cell [plot_cell] has the
    mime [text/x-python], and after backup and restore its mime is
    [undefined], while kind, language, source and metadata are those of the
    cell. *)
Theorem backup_open_loses_mime :
  Cell.mime plot_cell = Some "text/x-python" /\
  map CellDto.mime
    (restore_backup (rt := Reference.runtime) contentOptions0
       [plot_document] plot_uri)
  = [VUndefined; VUndefined] /\
  map CellDto.metadata
    (restore_backup (rt := Reference.runtime) contentOptions0
       [plot_document] plot_uri)
  = map Cell.metadata (NotebookDocument.cells plot_document).
Proof. vm_compute. repeat split; reflexivity. Qed.

(** C6. A buffer that is not JSON restores to the empty document: no
    cells, empty metadata, and [open] returns normally. *)
Theorem open_not_JSON {rt : Runtime} (contentOptions : TransientOptions)
    (uri : URI) (buffer : VSBuffer) :
  JSON_parse (VSBuffer_toString buffer) = None ->
  controller.open contentOptions uri (IdBuffer buffer)
  = {| data := NotebookData.make (VObj []) [];
       transientOptions := contentOptions |}.
Proof.
  intros Hparse. unfold controller.open, controller.open_try.
  rewrite Hparse. reflexivity.
Qed.

Lemma open_not_JSON_witness :
  @JSON_parse Reference.runtime
    (@VSBuffer_toString Reference.runtime
       (Reference.buffer_of_string "{cells: not json")) = None /\
  controller.open (rt := Reference.runtime) contentOptions0 python_uri
    (IdBuffer (Reference.buffer_of_string "{cells: not json"))
  = {| data := NotebookData.make (VObj []) [];
       transientOptions := contentOptions0 |}.
Proof.
  split.
  - vm_compute. reflexivity.
  - apply (open_not_JSON (rt := Reference.runtime)). vm_compute. reflexivity.
Defined.

(** JSON of another shape also restores to the empty document: the
    [TypeError] of reading [cells] off [null], or of calling [map] on what
    is not an array, is caught as well. *)
Example open_other_JSON :
  map (fun text =>
         NotebookData.cells
           (data (controller.open (rt := Reference.runtime) contentOptions0
                    python_uri (IdBuffer (Reference.buffer_of_string text)))))
      ["null"; "{}"; "[1, 2]"; "7"]
  = [[]; []; []; []].
Proof. vm_compute. reflexivity. Qed.

(** C7. [backup] of a URI that no listed document has answers the empty
    string: an absent result, not an error. *)
Theorem backup_unknown_document {rt : Runtime}
    (documents : list NotebookDocument.t) (uri : URI) :
  (forall document, In document documents ->
     URI_toString (NotebookDocument.uri document) <> URI_toString uri) ->
  controller.backup documents uri = inl "".
Proof.
  intros Hno. unfold controller.backup.
  assert (Hfind : controller.find_document documents uri = None).
  { unfold controller.find_document.
    induction documents as [|d l IH]; [reflexivity|]. cbn [find].
    destruct (String.eqb_spec
                (URI_toString (NotebookDocument.uri d)) (URI_toString uri))
      as [E|_].
    - exfalso. exact (Hno d (or_introl eq_refl) E).
    - apply IH. intros document Hin. apply Hno. right. exact Hin. }
  rewrite Hfind. reflexivity.
Qed.

Lemma backup_unknown_document_witness :
  controller.backup (rt := Reference.runtime) [python_document] plot_uri
  = inl "".
Proof.
  apply (backup_unknown_document (rt := Reference.runtime)).
  intros document [<- | []]. vm_compute. discriminate.
Defined.

(** ** The editor input serializer *)

Lemma get_truthy (data : jsval) (k : string) :
  truthy data = true -> get data k = Normal (field data k).
Proof.
  unfold field. destruct data; cbn; try discriminate; try reflexivity.
  intros _. destruct (lookup k props); reflexivity.
Qed.

Lemma revive_URI_toJSON (u : URI) :
  Reference.revive 1 (Reference.URI_toJSON u) = VUri u.
Proof.
  destruct u as [[|c1 s1] [|c2 s2] [|c3 s3] [|c4 s4] [|c5 s5]]; reflexivity.
Qed.

Lemma plain_URI_toJSON (u : URI) : Reference.plain (Reference.URI_toJSON u).
Proof.
  destruct u as [[|c1 s1] [|c2 s2] [|c3 s3] [|c4 s4] [|c5 s5]];
    repeat (constructor; cbn [snd]).
Qed.

Lemma runtime_marshalling_roundtrip : marshalling_roundtrip Reference.runtime.
Proof.
  intros resource inputResource.
  cbn [marshalling_parse JSON_stringify Reference.runtime].
  unfold Reference.parse_revive, Reference.stringify.
  cbn [Reference.serialize].
  rewrite ReferenceFacts.parse_print
    by (apply Reference.plain_obj;
        repeat (apply Forall_cons; [cbn [snd]; apply plain_URI_toJSON|]);
        apply Forall_nil).
  cbn [option_map Reference.revive Nat.ltb Nat.leb lookup String.eqb
       Ascii.eqb Bool.eqb].
  rewrite !revive_URI_toJSON. reflexivity.
Qed.

(** C10. The serializer round trip, and the answers of [deserialize].
    With a marshaller that revives the URIs it wrote, [deserialize] of the
    text [serialize] made of an interactive input is an input with the same
    primary resource and the same input resource.  And whenever the
    marshaller returns a payload that is falsy, or whose [resource] or
    [inputResource] is not a URI, [deserialize] returns [undefined]
    normally. *)
Theorem serializer_roundtrip {rt : Runtime} :
  (marshalling_roundtrip rt ->
   forall input : InteractiveEditorInput.t,
   exists raw input',
     InteractiveEditorSerializer.serialize (InteractiveInput input) = Normal raw /\
     InteractiveEditorSerializer.deserialize raw = Normal (Some input') /\
     NotebookEditorInput.resource (InteractiveEditorInput.primary input')
     = NotebookEditorInput.resource (InteractiveEditorInput.primary input) /\
     InteractiveEditorInput.inputResource input'
     = InteractiveEditorInput.inputResource input)
  /\
  (forall raw data,
     marshalling_parse raw = Some data ->
     truthy data = false
     \/ URI_isUri (field data "resource") = false
     \/ URI_isUri (field data "inputResource") = false ->
     InteractiveEditorSerializer.deserialize raw = Normal None).
Proof.
  split.
  - intros Hm input. eexists _, _. split; [reflexivity|].
    unfold InteractiveEditorSerializer.deserialize.
    rewrite Hm. cbn. repeat split; reflexivity.
  - intros raw data Hparse Hbad.
    unfold InteractiveEditorSerializer.deserialize.
    rewrite Hparse. cbn [bind].
    destruct (truthy data) eqn:Ht; [|reflexivity].
    cbn [negb]. rewrite !get_truthy by exact Ht. cbn [bind orb].
    destruct Hbad as [Hbad | [Hbad | Hbad]]; [discriminate Hbad | |].
    + rewrite Hbad. reflexivity.
    + rewrite Hbad. cbn [negb]. rewrite orb_true_r. reflexivity.
Qed.

(** The input of the first session goes through the reference runtime, and
    the payloads [null] and [{ resource: 1 }] deserialize to [undefined]. *)
Lemma serializer_roundtrip_witness :
  (exists raw input',
     InteractiveEditorSerializer.serialize (rt := Reference.runtime)
       (InteractiveInput python_input) = Normal raw /\
     InteractiveEditorSerializer.deserialize (rt := Reference.runtime) raw
     = Normal (Some input') /\
     NotebookEditorInput.resource (InteractiveEditorInput.primary input')
     = python_uri /\
     InteractiveEditorInput.inputResource input'
     = URI_from "vscode-interactive-input" "InteractiveInput-1")
  /\ InteractiveEditorSerializer.deserialize (rt := Reference.runtime) "null"
     = Normal None
  /\ InteractiveEditorSerializer.deserialize (rt := Reference.runtime)
       (Reference.stringify (VObj [("resource", VNum 1)]))
     = Normal None.
Proof.
  destruct (serializer_roundtrip (rt := Reference.runtime)) as [Hround Hundef].
  split; [|split].
  - exact (Hround runtime_marshalling_roundtrip python_input).
  - apply (Hundef "null" VNull); [reflexivity | left; reflexivity].
  - apply (Hundef _ (VObj [("resource", VNum 1)]));
      [vm_compute; reflexivity | right; left; reflexivity].
Defined.

(** Text that is not JSON makes the marshaller, and with it [deserialize],
    throw. *)
Example deserialize_not_JSON :
  InteractiveEditorSerializer.deserialize (rt := Reference.runtime) "resource"
  = Throw SyntaxError.
Proof. vm_compute. reflexivity. Qed.

(** ** The commands *)

Section CommandProperties.
Context {rt : Runtime} {H : Type} {history : IInteractiveHistoryService H}.

Lemma active_control (w : Workbench H) control nb doc text :
  commands.active w = Some (control, nb, doc, text) ->
  activeControl (editorService w) = Some control /\
  notebookEditor control = Some nb /\
  textModel nb = Some doc /\
  codeEditor control = Some {| getModel := Some text |}.
Proof.
  unfold commands.active. intros Ha.
  destruct (activeControl (editorService w)) as [c|]; [|discriminate].
  destruct (notebookEditor c) as [n|] eqn:En; [|discriminate].
  destruct (codeEditor c) as [[m]|] eqn:Ec; [|discriminate].
  destruct (textModel n) as [d|] eqn:Et; [|discriminate].
  destruct m as [t|]; [|discriminate].
  injection Ha as <- <- <- <-. repeat split; assumption.
Qed.

Lemma with_control_same (w : Workbench H) control (h : H) :
  activeControl (editorService w) = Some control ->
  editorService (commands.with_control w control h) = editorService w.
Proof.
  intros Hc. unfold commands.with_control. cbn [editorService].
  destruct (editorService w) as [a g f v]. cbn in *. rewrite Hc. reflexivity.
Qed.

Lemma splice_at_end {A : Type} (items l : list A) :
  splice (List.length l) 0 items l = (l ++ items)%list.
Proof.
  unfold splice. rewrite Nat.add_0_r, firstn_all, skipn_all, app_nil_r.
  reflexivity.
Qed.

(** A history command whose answer is [null] or the empty string leaves
    the editors as they are and makes the one call on the history
    service. *)
Lemma history_run_falsy (getValue : URI -> H -> option string * H)
    (call : URI -> ServiceCall) (w : Workbench H) control nb doc text :
  commands.active w = Some (control, nb, doc, text) ->
  fst (getValue (NotebookDocument.uri doc) (historyService w)) = None
  \/ fst (getValue (NotebookDocument.uri doc) (historyService w)) = Some "" ->
  editorService (fst (commands.history_run getValue call w)) = editorService w /\
  snd (commands.history_run getValue call w) = [call (NotebookDocument.uri doc)].
Proof.
  intros Ha Hv. unfold commands.history_run. rewrite Ha.
  destruct (active_control w control nb doc text Ha) as [Hc _].
  destruct (getValue (NotebookDocument.uri doc) (historyService w))
    as [previousValue h].
  cbn [fst] in Hv.
  destruct Hv as [-> | ->]; cbn [truthy String.eqb negb fst snd];
    (split; [apply with_control_same, Hc | reflexivity]).
Qed.

End CommandProperties.

(** C3. What [interactive.execute] records in the history is the empty
    string, whatever the text [v] of the input: with an active interactive
    editor, the command calls [addToHistory] exactly once (of the calls it
    makes, those of [addToHistory] are the one call for the URI of the
    notebook document with ['']), and the history service is left in the
    state that call gives, in which [v] has no part.  The text [v] goes
    only into the source of the appended cell: the calls are, in order,
    that [addToHistory], [setValue('')], the edit whose one cell has the
    source [v], and the two calls on the range of that cell; the input
    holds [''] afterwards and the notebook document is the old cells
    followed by the cell with source [v]. *)
Theorem execute_history_entry {H : Type} {history : IInteractiveHistoryService H}
    (w : Workbench H) control nb doc v :
  commands.active w = Some (control, nb, doc, v) ->
  let n := NotebookDocument.length doc in
  let language := commands.execute_language nb in
  let calls := snd (commands.execute_run w) in
  filter is_addToHistory calls
  = [call_addToHistory (NotebookDocument.uri doc) ""] /\
  List.length (filter is_addToHistory calls) = 1 /\
  historyService (fst (commands.execute_run w))
  = addToHistory (NotebookDocument.uri doc) "" (historyService w) /\
  calls
  = [call_addToHistory (NotebookDocument.uri doc) "";
     call_setValue "";
     call_bulkEdit_apply
       [{| resource := NotebookDocument.uri doc;
           cellEdit := {| index := n; count := 0;
                          cells := [ICellDto2.make Code None language v []
                                      (VObj [])] |} |}];
     call_executeNotebookCells n (n + 1);
     call_revealCellRangeInView n (n + 1)] /\
  exists control' nb',
    commands.active (fst (commands.execute_run w))
    = Some (control', nb',
            NotebookDocument.make (NotebookDocument.uri doc)
              (NotebookDocument.cells doc
               ++ [Cell.make Code language (VObj []) None [] v])%list,
            "").
Proof.
  intros Ha n language calls. subst calls.
  assert (Hdoc : applyCellEdit (commands.execute_edit doc language v) doc
                 = NotebookDocument.make (NotebookDocument.uri doc)
                     (NotebookDocument.cells doc
                      ++ [Cell.make Code language (VObj []) None [] v])).
  { unfold applyCellEdit, commands.execute_edit, NotebookDocument.length.
    cbn [index count cells cellEdit map]. rewrite splice_at_end. reflexivity. }
  unfold commands.execute_run. rewrite Ha. cbn [fst snd].
  fold language. rewrite Hdoc.
  repeat split; try reflexivity.
  eexists _, _. reflexivity.
Qed.

Lemma execute_history_entry_witness :
  let calls := snd (commands.execute_run python_workbench) in
  filter is_addToHistory calls = [call_addToHistory python_uri ""] /\
  List.length (filter is_addToHistory calls) = 1 /\
  historyService (fst (commands.execute_run python_workbench))
  = Reference.store_addToHistory python_uri "" Reference.empty_store /\
  calls
  = [call_addToHistory python_uri "";
     call_setValue "";
     call_bulkEdit_apply
       [{| resource := python_uri;
           cellEdit := {| index := 1; count := 0;
                          cells := [ICellDto2.make Code None "python" "print(2)"
                                      [] (VObj [])] |} |}];
     call_executeNotebookCells 1 2;
     call_revealCellRangeInView 1 2] /\
  exists control' nb',
    commands.active (fst (commands.execute_run python_workbench))
    = Some (control', nb',
            NotebookDocument.make python_uri
              [python_cell; Cell.make Code "python" (VObj []) None [] "print(2)"],
            "").
Proof.
  exact (execute_history_entry python_workbench python_control
           python_notebookEditor python_document "print(2)" eq_refl).
Defined.

(** C3 as stated fails: the input holds [print(2)], and the string passed
    to [addToHistory] is not that text. *)
Lemma execute_history_counterexample :
  commands.active python_workbench
  = Some (python_control, python_notebookEditor, python_document, "print(2)") /\
  ~ (forall s,
       In (call_addToHistory python_uri s)
          (snd (commands.execute_run python_workbench)) ->
       s = "print(2)").
Proof.
  split; [reflexivity|].
  intros Hclaim. specialize (Hclaim "" (or_introl eq_refl)). discriminate Hclaim.
Qed.

(** C4. [interactive.execute] appends one code cell holding the input text
    and empties the input: with [n] cells in the notebook document and the
    text [v] in the input, the edit asked of the bulk edit service replaces
    zero cells at index [n] by one cell of kind [Code] with source [v];
    after it the document is the old cells followed by that cell, which
    sits at index [n], and the text of the input is the empty string. *)
Theorem execute_appends_cell {H : Type} {history : IInteractiveHistoryService H}
    (w : Workbench H) control nb doc v :
  commands.active w = Some (control, nb, doc, v) ->
  let n := NotebookDocument.length doc in
  let language := commands.execute_language nb in
  let cell := Cell.make Code language (VObj []) None [] v in
  exists control' nb' doc',
    commands.active (fst (commands.execute_run w))
    = Some (control', nb', doc', "") /\
    NotebookDocument.uri doc' = NotebookDocument.uri doc /\
    NotebookDocument.cells doc' = (NotebookDocument.cells doc ++ [cell])%list /\
    NotebookDocument.length doc' = S n /\
    nth_error (NotebookDocument.cells doc') n = Some cell /\
    firstn n (NotebookDocument.cells doc') = NotebookDocument.cells doc /\
    Cell.cellKind cell = Code /\ Cell.getValue cell = v /\
    In (call_bulkEdit_apply
          [{| resource := NotebookDocument.uri doc;
              cellEdit := {| index := n; count := 0;
                             cells := [ICellDto2.make Code None language v []
                                         (VObj [])] |} |}])
       (snd (commands.execute_run w)) /\
    In (call_setValue "") (snd (commands.execute_run w)).
Proof.
  intros Ha n language cell.
  assert (Hdoc : applyCellEdit (commands.execute_edit doc language v) doc
                 = NotebookDocument.make (NotebookDocument.uri doc)
                     (NotebookDocument.cells doc ++ [cell])).
  { unfold applyCellEdit, commands.execute_edit, NotebookDocument.length.
    cbn [index count cells cellEdit map]. rewrite splice_at_end. reflexivity. }
  unfold commands.execute_run. rewrite Ha. cbn [fst snd].
  fold language. rewrite Hdoc.
  eexists _, _, _. split; [reflexivity|].
  cbn [NotebookDocument.uri NotebookDocument.cells].
  unfold NotebookDocument.length in *. cbn [NotebookDocument.cells].
  repeat split.
  - rewrite length_app. cbn. lia.
  - subst n. rewrite nth_error_app2 by lia. rewrite Nat.sub_diag. reflexivity.
  - subst n. rewrite firstn_app, firstn_all, Nat.sub_diag. cbn. apply app_nil_r.
  - right. right. left. reflexivity.
  - right. left. reflexivity.
Qed.

Lemma execute_appends_cell_witness :
  exists control' nb' doc',
    commands.active (fst (commands.execute_run python_workbench))
    = Some (control', nb', doc', "") /\
    NotebookDocument.uri doc' = python_uri /\
    NotebookDocument.cells doc'
    = [python_cell; Cell.make Code "python" (VObj []) None [] "print(2)"] /\
    NotebookDocument.length doc' = 2 /\
    nth_error (NotebookDocument.cells doc') 1
    = Some (Cell.make Code "python" (VObj []) None [] "print(2)") /\
    firstn 1 (NotebookDocument.cells doc') = [python_cell] /\
    Code = Code /\ "print(2)" = "print(2)" /\
    In (call_bulkEdit_apply
          [{| resource := python_uri;
              cellEdit := {| index := 1; count := 0;
                             cells := [ICellDto2.make Code None "python"
                                         "print(2)" [] (VObj [])] |} |}])
       (snd (commands.execute_run python_workbench)) /\
    In (call_setValue "") (snd (commands.execute_run python_workbench)).
Proof.
  exact (execute_appends_cell python_workbench python_control
           python_notebookEditor python_document "print(2)" eq_refl).
Defined.

(** C8. When the history is exhausted, the history commands do nothing:
    if the history service answers no value for the notebook document of
    the active interactive editor, the command ends normally, the editors
    (and with them the text of the input) are as before, and the only call
    made is the one on the history service. *)
Theorem history_exhausted_noop {H : Type} {history : IInteractiveHistoryService H}
    (w : Workbench H) control nb doc text :
  commands.active w = Some (control, nb, doc, text) ->
  (fst (getPreviousValue (NotebookDocument.uri doc) (historyService w)) = None ->
   editorService (fst (commands.history_previous_run w)) = editorService w /\
   commands.active (fst (commands.history_previous_run w))
   = Some (control, nb, doc, text) /\
   snd (commands.history_previous_run w)
   = [call_getPreviousValue (NotebookDocument.uri doc)]) /\
  (fst (getNextValue (NotebookDocument.uri doc) (historyService w)) = None ->
   editorService (fst (commands.history_next_run w)) = editorService w /\
   commands.active (fst (commands.history_next_run w))
   = Some (control, nb, doc, text) /\
   snd (commands.history_next_run w)
   = [call_getNextValue (NotebookDocument.uri doc)]).
Proof.
  intros Ha. split; intros Hnone.
  - destruct (history_run_falsy getPreviousValue call_getPreviousValue
                w control nb doc text Ha (or_introl Hnone)) as [He Hc].
    fold (commands.history_previous_run w) in He, Hc.
    repeat split; [exact He | | exact Hc].
    unfold commands.active in *. rewrite He. exact Ha.
  - destruct (history_run_falsy getNextValue call_getNextValue
                w control nb doc text Ha (or_introl Hnone)) as [He Hc].
    fold (commands.history_next_run w) in He, Hc.
    repeat split; [exact He | | exact Hc].
    unfold commands.active in *. rewrite He. exact Ha.
Qed.

Lemma history_exhausted_noop_witness :
  (editorService (fst (commands.history_previous_run python_workbench))
   = python_editorService /\
   commands.active (fst (commands.history_previous_run python_workbench))
   = Some (python_control, python_notebookEditor, python_document, "print(2)") /\
   snd (commands.history_previous_run python_workbench)
   = [call_getPreviousValue python_uri]) /\
  (editorService (fst (commands.history_next_run python_workbench))
   = python_editorService /\
   commands.active (fst (commands.history_next_run python_workbench))
   = Some (python_control, python_notebookEditor, python_document, "print(2)") /\
   snd (commands.history_next_run python_workbench)
   = [call_getNextValue python_uri]).
Proof.
  destruct (history_exhausted_noop python_workbench python_control
              python_notebookEditor python_document "print(2)" eq_refl)
    as [Hprevious Hnext].
  split; [apply Hprevious | apply Hnext]; reflexivity.
Defined.

(** C9. An empty string from the history is treated as no value: if
    [getPreviousValue] (or [getNextValue]) answers [''] for the notebook
    document of the active interactive editor, the command leaves the
    editors and the text of the input as they are, exactly as for [null]. *)
Theorem history_empty_string_noop {H : Type}
    {history : IInteractiveHistoryService H}
    (w : Workbench H) control nb doc text :
  commands.active w = Some (control, nb, doc, text) ->
  (fst (getPreviousValue (NotebookDocument.uri doc) (historyService w)) = Some "" ->
   editorService (fst (commands.history_previous_run w)) = editorService w /\
   commands.active (fst (commands.history_previous_run w))
   = Some (control, nb, doc, text) /\
   snd (commands.history_previous_run w)
   = [call_getPreviousValue (NotebookDocument.uri doc)]) /\
  (fst (getNextValue (NotebookDocument.uri doc) (historyService w)) = Some "" ->
   editorService (fst (commands.history_next_run w)) = editorService w /\
   commands.active (fst (commands.history_next_run w))
   = Some (control, nb, doc, text) /\
   snd (commands.history_next_run w)
   = [call_getNextValue (NotebookDocument.uri doc)]).
Proof.
  intros Ha. split; intros Hempty.
  - destruct (history_run_falsy getPreviousValue call_getPreviousValue
                w control nb doc text Ha (or_intror Hempty)) as [He Hc].
    fold (commands.history_previous_run w) in He, Hc.
    repeat split; [exact He | | exact Hc].
    unfold commands.active in *. rewrite He. exact Ha.
  - destruct (history_run_falsy getNextValue call_getNextValue
                w control nb doc text Ha (or_intror Hempty)) as [He Hc].
    fold (commands.history_next_run w) in He, Hc.
    repeat split; [exact He | | exact Hc].
    unfold commands.active in *. rewrite He. exact Ha.
Qed.

Lemma history_empty_string_noop_witness :
  fst (getPreviousValue python_uri (historyService draft_workbench)) = Some "" /\
  editorService (fst (commands.history_previous_run draft_workbench))
  = editorService draft_workbench /\
  commands.active (fst (commands.history_previous_run draft_workbench))
  = Some ({| notebookEditor := Some python_notebookEditor;
             codeEditor := Some {| getModel := Some "draft" |} |},
          python_notebookEditor, python_document, "draft") /\
  snd (commands.history_previous_run draft_workbench)
  = [call_getPreviousValue python_uri].
Proof.
  split; [reflexivity|].
  refine (proj1 (history_empty_string_noop draft_workbench _
                   python_notebookEditor python_document "draft" eq_refl) _).
  reflexivity.
Defined.

(** The store of the specification at work: after [a] and [b] were added,
    going back gives [b], then [a], then nothing; going forward from the
    bottom gives nothing. *)
Example store_navigation :
  let h := addToHistory python_uri "b"
             (addToHistory python_uri "a" Reference.empty_store) in
  let back1 := getPreviousValue python_uri h in
  let back2 := getPreviousValue python_uri (snd back1) in
  let back3 := getPreviousValue python_uri (snd back2) in
  let forth := getNextValue python_uri (snd back3) in
  (fst back1, fst back2, fst back3, fst forth, fst (getNextValue python_uri h))
  = (Some "b", Some "a", None, Some "b", None).
Proof. vm_compute. reflexivity. Qed.

(** An entry that is not empty does reach the input. *)
Example history_previous_sets_text :
  commands.active
    (fst (commands.history_previous_run
            {| editorService := python_editorService;
               historyService :=
                 Reference.store_addToHistory python_uri "print(1)"
                   Reference.empty_store |}))
  = Some ({| notebookEditor := Some python_notebookEditor;
             codeEditor := Some {| getModel := Some "print(1)" |} |},
          python_notebookEditor, python_document, "print(1)").
Proof. reflexivity. Qed.

(** ** Minting the identifiers of a new session *)

Section MintProperties.
Context {rt : Runtime}.

Lemma Set_has_In (s : list string) (x : string) :
  commands.Set_has s x = true <-> In x s.
Proof.
  unfold commands.Set_has. rewrite existsb_exists. split.
  - intros [y [Hy E]]. apply String.eqb_eq in E. subst y. exact Hy.
  - intros Hx. exists x. split; [exact Hx | apply String.eqb_refl].
Qed.

Lemma existing_documents_In (editors : list IEditorIdentifier) (x : string) :
  In x (commands.existing_documents editors)
  <-> exists id r, In id editors
                   /\ EditorInput_resource (editor id) = Some r
                   /\ URI_toString r = x.
Proof.
  unfold commands.existing_documents. rewrite in_flat_map. split.
  - intros [id [Hid Hx]].
    destruct (EditorInput_resource (editor id)) as [r|] eqn:E; [|destruct Hx].
    destruct Hx as [<- | []]. exists id, r. repeat split; assumption.
  - intros [id [r [Hid [E <-]]]]. exists id. split; [exact Hid|].
    rewrite E. left. reflexivity.
Qed.

(** The loop stops at the first counter that is not taken, if there is one
    within the rounds it is given. *)
Lemma mint_first_free (existing : list string) (fuel : nat) :
  forall counter k,
    counter <= k < counter + fuel -> taken existing k = false ->
    exists n,
      counter <= n <= k /\
      commands.mint fuel counter existing
      = Some (commands.mint_notebookUri n, commands.mint_inputUri n) /\
      taken existing n = false /\
      forall m, counter <= m < n -> taken existing m = true.
Proof.
  induction fuel as [|fuel IH]; intros counter k Hk Hfree; [lia|].
  cbn [commands.mint]. fold (taken existing counter).
  destruct (taken existing counter) eqn:E.
  - assert (k <> counter) by (intros ->; congruence).
    destruct (IH (S counter) k ltac:(lia) Hfree) as [n [Hn [Hmint [Hf Hmin]]]].
    exists n. repeat split; try assumption; try lia.
    intros m Hm. destruct (Nat.eq_dec m counter) as [->|Hne]; [exact E|].
    apply Hmin. lia.
  - exists counter. repeat split; try assumption; try lia.
Qed.

(** More rounds do not change what the loop returns. *)
Lemma mint_fuel_monotone (existing : list string) (fuel : nat) :
  forall counter r,
    commands.mint fuel counter existing = Some r ->
    forall fuel', fuel <= fuel' ->
                  commands.mint fuel' counter existing = Some r.
Proof.
  induction fuel as [|fuel IH]; intros counter r Hr fuel' Hle;
    [discriminate Hr|].
  destruct fuel' as [|fuel']; [lia|]. cbn [commands.mint] in *.
  destruct (commands.Set_has existing
              (URI_toString (commands.mint_notebookUri counter))).
  - apply IH; [exact Hr | lia].
  - exact Hr.
Qed.

Lemma forallb_false {A : Type} (f : A -> bool) (l : list A) :
  forallb f l = false -> exists x, In x l /\ f x = false.
Proof.
  induction l as [|x l IH]; cbn; [discriminate|].
  destruct (f x) eqn:E; cbn.
  - intros Hl. destruct (IH Hl) as [y [Hy Hf]]. exists y. auto.
  - intros _. exists x. auto.
Qed.

(** Among one counter more than there are strings in the set, one is not
    taken: the identifiers of different counters are different strings. *)
Lemma some_counter_free (existing : list string) :
  (forall m n,
     URI_toString (commands.mint_notebookUri m)
     = URI_toString (commands.mint_notebookUri n) -> m = n) ->
  exists k, 1 <= k < 1 + S (List.length existing) /\ taken existing k = false.
Proof.
  intros Hinj.
  destruct (forallb (taken existing) (seq 1 (S (List.length existing)))) eqn:E.
  - exfalso. rewrite forallb_forall in E.
    pose (f := fun k => URI_toString (commands.mint_notebookUri k)).
    assert (Hnodup : NoDup (map f (seq 1 (S (List.length existing))))).
    { apply Injective_map_NoDup; [exact Hinj | apply seq_NoDup]. }
    assert (Hincl : incl (map f (seq 1 (S (List.length existing)))) existing).
    { intros x Hx. apply in_map_iff in Hx. destruct Hx as [k [<- Hk]].
      apply Set_has_In. exact (E k Hk). }
    pose proof (NoDup_incl_length Hnodup Hincl) as Hlen.
    rewrite length_map, length_seq in Hlen. lia.
  - destruct (forallb_false _ _ E) as [k [Hk Hf]].
    apply in_seq in Hk. exists k. split; [lia | exact Hf].
Qed.

End MintProperties.

(** C5. The identifiers of a new session carry the smallest free suffix:
    when [interactive.open] does not find an interactive editor to reuse,
    it returns the notebook URI (interactive scheme, path
    [Interactive-<n>.interactive]) and the input URI (interactive input
    scheme, path [InteractiveInput-<n>]) for one and the same [n >= 1],
    such that the notebook URI of [n] is the resource of no open editor
    while those of all smaller positive suffixes are.  Asked of the
    runtime: URIs minted for different counters have different strings. *)
Theorem open_mints_smallest_free {rt : Runtime} {H : Type}
    {history : IInteractiveHistoryService H}
    (column : option Z) (resource : option URI) (w : Workbench H) :
  (forall m n,
     URI_toString (commands.mint_notebookUri m)
     = URI_toString (commands.mint_notebookUri n) -> m = n) ->
  commands.open_existing (editorService w) resource = None ->
  exists n calls,
    1 <= n /\
    commands.open_run column resource w
    = Some ((URI_from Schemas_vscodeInteractive
               ("Interactive-" ++ Number_toString n ++ ".interactive"),
             URI_from Schemas_vscodeInteractiveInput
               ("InteractiveInput-" ++ Number_toString n)),
            {| editorService := editorService w;
               historyService :=
                 clearHistory (commands.mint_notebookUri n) (historyService w) |},
            calls) /\
    (forall id r,
       In id (getEditors (editorService w)) ->
       EditorInput_resource (editor id) = Some r ->
       URI_toString r <> URI_toString (commands.mint_notebookUri n)) /\
    (forall m, 1 <= m < n ->
       exists id r,
         In id (getEditors (editorService w)) /\
         EditorInput_resource (editor id) = Some r /\
         URI_toString r = URI_toString (commands.mint_notebookUri m)).
Proof.
  intros Hinj Hnew.
  set (existing := commands.existing_documents (getEditors (editorService w))).
  destruct (some_counter_free existing Hinj) as [k [Hk Hfree]].
  destruct (mint_first_free existing (S (List.length existing)) 1 k Hk Hfree)
    as [n [Hn [Hmint [Hf Hmin]]]].
  exists n. unfold commands.open_run. rewrite Hnew. fold existing.
  rewrite Hmint. eexists. split; [lia|]. split; [reflexivity|]. split.
  - intros id r Hid Hr E.
    assert (Hin : In (URI_toString (commands.mint_notebookUri n)) existing).
    { apply existing_documents_In. exists id, r. auto. }
    apply Set_has_In in Hin. unfold taken in Hf. congruence.
  - intros m Hm. specialize (Hmin m Hm). unfold taken in Hmin.
    apply Set_has_In, existing_documents_In in Hmin. exact Hmin.
Qed.

Lemma append_cancel_r (x y c : string) : x ++ c = y ++ c -> x = y.
Proof.
  revert y. induction x as [|a x IH]; intros [|b y] E; cbn in E.
  - reflexivity.
  - exfalso. apply (f_equal String.length) in E. cbn in E.
    rewrite ReferenceFacts.length_append in E. lia.
  - exfalso. apply (f_equal String.length) in E. cbn in E.
    rewrite ReferenceFacts.length_append in E. lia.
  - injection E as -> E. f_equal. apply IH, E.
Qed.

Lemma Number_toString_inj (m n : nat) :
  Number_toString m = Number_toString n -> m = n.
Proof.
  unfold Number_toString. intros E.
  apply (f_equal NilEmpty.uint_of_string) in E.
  rewrite !NilEmpty.usu in E. injection E as E.
  apply DecimalNat.Unsigned.to_uint_inj, E.
Qed.

Lemma reference_mint_injective (m n : nat) :
  @URI_toString Reference.runtime (commands.mint_notebookUri m)
  = @URI_toString Reference.runtime (commands.mint_notebookUri n) -> m = n.
Proof.
  cbn. rewrite !ReferenceFacts.append_empty_r. intros E.
  repeat match type of E with
         | String _ _ = String _ _ => injection E as E
         end.
  apply append_cancel_r in E. apply Number_toString_inj, E.
Qed.

(** With [Interactive-1] and [Interactive-3] open, the new session is
    [Interactive-2]. *)
Lemma open_mints_smallest_free_witness :
  exists n calls,
    1 <= n /\
    commands.open_run None None python_workbench
    = Some ((URI_from "vscode-interactive"
               ("Interactive-" ++ Number_toString n ++ ".interactive"),
             URI_from "vscode-interactive-input"
               ("InteractiveInput-" ++ Number_toString n)),
            {| editorService := python_editorService;
               historyService :=
                 Reference.store_clearHistory (commands.mint_notebookUri n)
                   Reference.empty_store |},
            calls) /\
    (forall id r,
       In id python_editors ->
       EditorInput_resource (editor id) = Some r ->
       Reference.format_uri r
       <> Reference.format_uri (commands.mint_notebookUri n)) /\
    (forall m, 1 <= m < n ->
       exists id r,
         In id python_editors /\
         EditorInput_resource (editor id) = Some r /\
         Reference.format_uri r
         = Reference.format_uri (commands.mint_notebookUri m)).
Proof.
  exact (open_mints_smallest_free (rt := Reference.runtime) None None
           python_workbench reference_mint_injective eq_refl).
Defined.

Example open_mints_Interactive_2 :
  option_map (fun r => fst (fst r))
             (commands.open_run None None python_workbench)
  = Some (URI_from "vscode-interactive" "Interactive-2.interactive",
          URI_from "vscode-interactive-input" "InteractiveInput-2").
Proof. vm_compute. reflexivity. Qed.

(** A resource that an interactive editor already shows is reused, not
    minted. *)
Example open_reuses_editor :
  option_map (fun r => (fst (fst r), snd r))
             (commands.open_run (Some 2%Z) (Some python_uri) python_workbench)
  = Some ((python_uri, URI_from "vscode-interactive-input" "InteractiveInput-1"),
          [call_openEditor python_input 0%Z]).
Proof. vm_compute. reflexivity. Qed.

(** * Further properties *)

(** ** Restoring: what [open] does with any buffer *)

Lemma mapM_Normal_Forall2 {A B : Type} (f : A -> completion B) (l : list A) :
  forall r, mapM f l = Normal r -> Forall2 (fun x y => f x = Normal y) l r.
Proof.
  induction l as [|x l IH]; cbn [mapM]; intros r Hr.
  - injection Hr as <-. constructor.
  - destruct (f x) as [y|e] eqn:Ex; [|discriminate Hr]. cbn [bind] in Hr.
    destruct (mapM f l) as [ys|e]; [|discriminate Hr]. cbn [bind] in Hr.
    injection Hr as <-. constructor; [exact Ex | apply IH; reflexivity].
Qed.

Lemma mapM_Throw_inv {A B : Type} (f : A -> completion B) (l : list A) :
  forall e, mapM f l = Throw e -> exists x, In x l /\ f x = Throw e.
Proof.
  induction l as [|x l IH]; cbn [mapM]; intros e He; [discriminate He|].
  destruct (f x) as [y|e'] eqn:Ex.
  - cbn [bind] in He. destruct (mapM f l) as [ys|e'']; [discriminate He|].
    cbn [bind] in He. injection He as <-.
    destruct (IH e'' eq_refl) as [z [Hz Hf]]. exists z. split; [right|]; assumption.
  - cbn [bind] in He. injection He as <-. exists x. split; [left; reflexivity | exact Ex].
Qed.

Lemma mapM_Throw_In {A B : Type} (f : A -> completion B) (l : list A) x e :
  In x l -> f x = Throw e -> exists e', mapM f l = Throw e'.
Proof.
  induction l as [|y l IH]; intros Hin Hx; [destruct Hin|].
  cbn [mapM]. destruct (f y) as [b|e'] eqn:Ey; [|exists e'; reflexivity].
  cbn [bind]. destruct Hin as [->|Hin]; [congruence|].
  destruct (IH Hin Hx) as [e' ->]. exists e'. reflexivity.
Qed.

Lemma mapM_Normal_map {A B : Type} (f : A -> completion B) (h : A -> B)
    (l : list A) :
  (forall x, In x l -> f x = Normal (h x)) -> mapM f l = Normal (map h l).
Proof.
  intros Hf. rewrite <- (map_id l) at 1.
  apply (mapM_map_Normal f (fun x => x) h). exact Hf.
Qed.

(** Where one property can be read, all can. *)
Lemma get_Normal_field (v : jsval) (k0 : string) (w : jsval) :
  get v k0 = Normal w -> forall k, get v k = Normal (field v k).
Proof.
  intros Hget k. unfold field.
  destruct v; try discriminate Hget; cbn [get]; try reflexivity.
  destruct (lookup k props); reflexivity.
Qed.

(** What [open] returns for a buffer whose text parses to a value with an
    array under [cells]. *)
Lemma open_cells_array {rt : Runtime} contentOptions uri buffer document items :
  JSON_parse (VSBuffer_toString buffer) = Some document ->
  get document "cells" = Normal (VArr items) ->
  controller.open contentOptions uri (IdBuffer buffer)
  = {| data := NotebookData.make (VObj [])
                 match mapM controller.open_cell items with
                 | Normal restored => restored
                 | Throw _ => []
                 end;
       transientOptions := contentOptions |}.
Proof.
  intros Hparse Hcells. unfold controller.open, controller.open_try.
  rewrite Hparse. cbn [bind]. rewrite Hcells. cbn [bind js_map].
  destruct (mapM controller.open_cell items); reflexivity.
Qed.

(** X1. Restoring is all or nothing: for a buffer whose JSON has an array
    under [cells], either every element is turned into a cell, in order, or
    one element made the callback throw and the document has no cells at
    all. *)
Theorem open_all_or_nothing {rt : Runtime} (contentOptions : TransientOptions)
    (uri : URI) (buffer : VSBuffer) (document : jsval) (items : list jsval) :
  JSON_parse (VSBuffer_toString buffer) = Some document ->
  get document "cells" = Normal (VArr items) ->
  let restored :=
    NotebookData.cells
      (data (controller.open contentOptions uri (IdBuffer buffer))) in
  Forall2 (fun cell dto => controller.open_cell cell = Normal dto) items restored
  \/ (restored = []
      /\ exists cell e, In cell items /\ controller.open_cell cell = Throw e).
Proof.
  intros Hparse Hcells.
  rewrite (open_cells_array contentOptions uri buffer document items Hparse Hcells).
  cbn [data NotebookData.cells].
  destruct (mapM controller.open_cell items) as [restored|e] eqn:E.
  - left. apply mapM_Normal_Forall2, E.
  - right. split; [reflexivity|].
    destruct (mapM_Throw_inv _ _ _ E) as [cell [Hin He]]. exists cell, e. auto.
Qed.

Lemma open_all_or_nothing_witness :
  let restored :=
    NotebookData.cells
      (data (controller.open (rt := Reference.runtime) contentOptions0 python_uri
               (IdBuffer (Reference.buffer_of_string
                            (Reference.stringify broken_backup))))) in
  Forall2 (fun cell dto =>
             controller.open_cell (rt := Reference.runtime) cell = Normal dto)
          [VObj [("content", VStr "x")]; VNull] restored
  \/ (restored = []
      /\ exists cell e,
           In cell [VObj [("content", VStr "x")]; VNull]
           /\ controller.open_cell (rt := Reference.runtime) cell = Throw e).
Proof.
  apply (open_all_or_nothing (rt := Reference.runtime) contentOptions0 python_uri
           _ broken_backup); vm_compute; reflexivity.
Defined.

(** X2. One element that cannot be restored empties the document: if the
    callback throws for some element of [cells] (a [null] in the array, an
    [outputs] that is truthy but no array), [open] returns no cells, also
    not those that were fine. *)
Theorem open_bad_cell_empties {rt : Runtime} (contentOptions : TransientOptions)
    (uri : URI) (buffer : VSBuffer) (document : jsval) (items : list jsval)
    (cell : jsval) (e : JsError) :
  JSON_parse (VSBuffer_toString buffer) = Some document ->
  get document "cells" = Normal (VArr items) ->
  In cell items -> controller.open_cell cell = Throw e ->
  controller.open contentOptions uri (IdBuffer buffer)
  = {| data := NotebookData.make (VObj []) [];
       transientOptions := contentOptions |}.
Proof.
  intros Hparse Hcells Hin He.
  rewrite (open_cells_array contentOptions uri buffer document items Hparse Hcells).
  destruct (mapM_Throw_In _ _ _ _ Hin He) as [e' ->]. reflexivity.
Qed.

Lemma open_bad_cell_empties_witness :
  controller.open (rt := Reference.runtime) contentOptions0 python_uri
    (IdBuffer (Reference.buffer_of_string (Reference.stringify broken_backup)))
  = {| data := NotebookData.make (VObj []) [];
       transientOptions := contentOptions0 |}.
Proof.
  apply (open_bad_cell_empties (rt := Reference.runtime) contentOptions0
           python_uri _ broken_backup
           [VObj [("content", VStr "x")]; VNull] VNull TypeError);
    first [ vm_compute; reflexivity | right; left; reflexivity ].
Defined.

(** X3. JSON that is not a document restores to the empty document: when
    the parsed value has no array under [cells] (it is [null], a number, an
    object without [cells], an object whose [cells] is a string), the
    [TypeError] is caught like the [SyntaxError] of text that is not
    JSON. *)
Theorem open_not_a_document {rt : Runtime} (contentOptions : TransientOptions)
    (uri : URI) (buffer : VSBuffer) (document : jsval) :
  JSON_parse (VSBuffer_toString buffer) = Some document ->
  (forall items, get document "cells" <> Normal (VArr items)) ->
  controller.open contentOptions uri (IdBuffer buffer)
  = {| data := NotebookData.make (VObj []) [];
       transientOptions := contentOptions |}.
Proof.
  intros Hparse Hno. unfold controller.open, controller.open_try.
  rewrite Hparse. cbn [bind].
  destruct (get document "cells") as [cells|e] eqn:E; [|reflexivity].
  cbn [bind]. destruct cells; try reflexivity.
  exfalso. exact (Hno items eq_refl).
Qed.

Lemma open_not_a_document_witness :
  controller.open (rt := Reference.runtime) contentOptions0 python_uri
    (IdBuffer (Reference.buffer_of_string
                 (Reference.stringify (VObj [("cells", VStr "none")]))))
  = {| data := NotebookData.make (VObj []) [];
       transientOptions := contentOptions0 |}.
Proof.
  apply (open_not_a_document (rt := Reference.runtime) contentOptions0
           python_uri _ (VObj [("cells", VStr "none")])).
  - vm_compute. reflexivity.
  - intros items. vm_compute. discriminate.
Defined.

(** X4. Cells are restored without being checked: an element of [cells]
    whose [outputs] is missing or falsy becomes a cell with no outputs whose
    other fields are whatever the element has under [content], [language],
    [kind], [mime] and [metadata], [undefined] where it has nothing. *)
Theorem open_cells_without_outputs {rt : Runtime}
    (contentOptions : TransientOptions) (uri : URI) (buffer : VSBuffer)
    (document : jsval) (items : list jsval) :
  JSON_parse (VSBuffer_toString buffer) = Some document ->
  get document "cells" = Normal (VArr items) ->
  (forall cell, In cell items ->
     exists outs, get cell "outputs" = Normal outs /\ truthy outs = false) ->
  NotebookData.cells (data (controller.open contentOptions uri (IdBuffer buffer)))
  = map (fun cell =>
           CellDto.make (field cell "content") (field cell "language")
             (field cell "kind") (field cell "mime") []
             (field cell "metadata"))
        items.
Proof.
  intros Hparse Hcells Hitems.
  rewrite (open_cells_array contentOptions uri buffer document items Hparse Hcells).
  cbn [data NotebookData.cells].
  rewrite (mapM_Normal_map controller.open_cell
             (fun cell =>
                CellDto.make (field cell "content") (field cell "language")
                  (field cell "kind") (field cell "mime") []
                  (field cell "metadata"))); [reflexivity|].
  intros cell Hin. destruct (Hitems cell Hin) as [outs [Houts Hfalsy]].
  pose proof (get_Normal_field cell "outputs" outs Houts) as Hget.
  assert (Hf : field cell "outputs" = outs)
    by (unfold field; rewrite Houts; reflexivity).
  unfold controller.open_cell. rewrite !Hget. cbn [bind].
  rewrite Hf, Hfalsy. reflexivity.
Qed.

Lemma open_cells_without_outputs_witness :
  NotebookData.cells
    (data (controller.open (rt := Reference.runtime) contentOptions0 python_uri
             (IdBuffer (Reference.buffer_of_string
                          (Reference.stringify
                             (VObj [("cells",
                                     VArr [VObj [("content", VStr "x");
                                                 ("outputs", VNull)];
                                           VNum 7])]))))))
  = [CellDto.make (VStr "x") VUndefined VUndefined VUndefined [] VUndefined;
     CellDto.make VUndefined VUndefined VUndefined VUndefined [] VUndefined].
Proof.
  apply (open_cells_without_outputs (rt := Reference.runtime) contentOptions0
           python_uri _
           (VObj [("cells", VArr [VObj [("content", VStr "x"); ("outputs", VNull)];
                                  VNum 7])])
           [VObj [("content", VStr "x"); ("outputs", VNull)]; VNum 7]).
  - vm_compute. reflexivity.
  - vm_compute. reflexivity.
  - intros cell [<- | [<- | []]].
    + exists VNull. split; reflexivity.
    + exists VUndefined. split; reflexivity.
Defined.

Lemma open_transientOptions {rt : Runtime} (contentOptions : TransientOptions)
    (uri : URI) (backupId : BackupId) :
  transientOptions (controller.open contentOptions uri backupId) = contentOptions.
Proof.
  unfold controller.open. destruct backupId as [s|buffer|]; try reflexivity.
  destruct (controller.open_try contentOptions (VSBuffer_toString buffer))
    as [result|e] eqn:E; [|reflexivity].
  unfold controller.open_try in E.
  destruct (JSON_parse (VSBuffer_toString buffer)) as [document|];
    cbn [bind] in E; [|discriminate E].
  destruct (get document "cells") as [cells|e]; cbn [bind] in E; [|discriminate E].
  destruct (js_map controller.open_cell cells) as [cells'|e];
    cbn [bind] in E; [|discriminate E].
  injection E as <-. reflexivity.
Qed.

(** X5. Whatever [open] is given, its result carries the options object of
    the provider and empty document metadata; and for a backup id that is
    a string, or for none, it is the empty document. *)
Theorem open_result_shape {rt : Runtime} (contentOptions : TransientOptions)
    (uri : URI) (backupId : BackupId) :
  transientOptions (controller.open contentOptions uri backupId) = contentOptions
  /\ NotebookData.metadata (data (controller.open contentOptions uri backupId))
     = VObj []
  /\ ((forall buffer, backupId <> IdBuffer buffer) ->
      NotebookData.cells (data (controller.open contentOptions uri backupId)) = []).
Proof.
  unfold controller.open, controller.open_try.
  destruct backupId as [s|buffer|].
  - repeat split; reflexivity.
  - destruct (JSON_parse (VSBuffer_toString buffer)) as [document|];
      cbn [bind]; [|repeat split; try reflexivity; intros Hb; now destruct (Hb buffer)].
    destruct (get document "cells") as [cells|e];
      cbn [bind]; [|repeat split; try reflexivity; intros Hb; now destruct (Hb buffer)].
    destruct (js_map controller.open_cell cells) as [cells'|e];
      cbn [bind]; repeat split; try reflexivity;
      intros Hb; now destruct (Hb buffer).
  - repeat split; reflexivity.
Qed.

(** ** Backup and restore, continued *)

(** X6. The metadata of a cell comes back as its JSON value: after backup
    and restore, the metadata of every restored cell is what
    [JSON.stringify] keeps of the metadata of the cell it came from
    (properties whose value is [undefined] are gone, the rest is as it
    was). *)
Theorem backup_open_metadata {rt : Runtime} (contentOptions : TransientOptions)
    (documents : list NotebookDocument.t) (uri : URI) (doc : NotebookDocument.t) :
  JSON_roundtrip rt -> VSBuffer_roundtrip rt -> Uint8Array_roundtrip rt ->
  controller.find_document documents uri = Some doc ->
  Forall (fun cell => JSON_value (Cell.metadata cell) <> None)
         (NotebookDocument.cells doc) ->
  Forall2 (fun cell restored =>
             JSON_value (Cell.metadata cell) = Some (CellDto.metadata restored))
          (NotebookDocument.cells doc)
          (restore_backup contentOptions documents uri).
Proof.
  intros Hj Hb Hu Hfind Hmd. unfold restore_backup.
  destruct (open_backup_document contentOptions uri documents doc
              Hj Hb Hu Hfind Hmd) as [buffer [Hbackup Hopen]].
  rewrite Hbackup, Hopen. cbn [data NotebookData.cells].
  clear Hopen Hbackup Hfind. revert Hmd.
  generalize (NotebookDocument.cells doc). intros l Hmd.
  induction Hmd as [|cell l Hcell _ IH]; cbn [map]; constructor.
  - cbn [CellDto.metadata]. unfold stored_metadata.
    destruct (JSON_value (Cell.metadata cell)); [reflexivity | contradiction].
  - exact IH.
Qed.

Lemma backup_open_metadata_witness :
  Forall2 (fun cell restored =>
             JSON_value (Cell.metadata cell) = Some (CellDto.metadata restored))
          [sparse_cell]
          (restore_backup (rt := Reference.runtime) contentOptions0
             [sparse_document] python_uri).
Proof.
  apply (backup_open_metadata (rt := Reference.runtime) contentOptions0
           [sparse_document] python_uri sparse_document).
  - apply ReferenceFacts.runtime_JSON_roundtrip.
  - apply ReferenceFacts.runtime_VSBuffer_roundtrip.
  - apply ReferenceFacts.runtime_Uint8Array_roundtrip.
  - reflexivity.
  - repeat constructor; discriminate.
Defined.

Example sparse_metadata_restored :
  map CellDto.metadata
    (restore_backup (rt := Reference.runtime) contentOptions0
       [sparse_document] python_uri)
  = [VObj [("collapsed", VBool true)]].
Proof. vm_compute. reflexivity. Qed.

Lemma map_eq_transfer {A B C : Type} (f : A -> B) (g : A -> C) :
  (forall x y, f x = f y -> g x = g y) ->
  forall l1 l2, map f l1 = map f l2 -> map g l1 = map g l2.
Proof.
  intros Hfg. induction l1 as [|x l1 IH]; intros [|y l2] E;
    try discriminate E; [reflexivity|].
  cbn [map] in *. injection E as Ex El.
  rewrite (Hfg x y Ex), (IH l2 El). reflexivity.
Qed.

Lemma map_eq_injective {A B : Type} (f : A -> B) :
  (forall x y, f x = f y -> x = y) ->
  forall l1 l2, map f l1 = map f l2 -> l1 = l2.
Proof.
  intros Hf l1 l2 E.
  rewrite <- (map_id l1), <- (map_id l2).
  exact (map_eq_transfer f (fun x => x) Hf l1 l2 E).
Qed.

Lemma dto_of_item_injective (a b : OutputItem.t) :
  dto_of_item a = dto_of_item b -> a = b.
Proof.
  destruct a, b. unfold dto_of_item. cbn. intros E. injection E as -> ->.
  reflexivity.
Qed.

Lemma dto_of_output_injective (a b : CellOutput.t) :
  dto_of_output a = dto_of_output b -> a = b.
Proof.
  destruct a, b. unfold dto_of_output. cbn. intros E. injection E as -> E.
  apply (map_eq_injective dto_of_item dto_of_item_injective) in E. subst.
  reflexivity.
Qed.

Lemma CellKind_value_injective (a b : CellKind) :
  CellKind_value a = CellKind_value b -> a = b.
Proof. destruct a, b; cbn; intros E; first [reflexivity | discriminate E]. Qed.

(** X7. A backup determines the cells it was made of: if the backups of two
    documents are the same, their cells agree, in order, on kind,
    language, source text and outputs. *)
Theorem backup_determines_cells {rt : Runtime}
    (documents1 documents2 : list NotebookDocument.t) (uri1 uri2 : URI)
    (doc1 doc2 : NotebookDocument.t) :
  JSON_roundtrip rt -> VSBuffer_roundtrip rt -> Uint8Array_roundtrip rt ->
  controller.find_document documents1 uri1 = Some doc1 ->
  controller.find_document documents2 uri2 = Some doc2 ->
  Forall (fun cell => JSON_value (Cell.metadata cell) <> None)
         (NotebookDocument.cells doc1) ->
  Forall (fun cell => JSON_value (Cell.metadata cell) <> None)
         (NotebookDocument.cells doc2) ->
  controller.backup documents1 uri1 = controller.backup documents2 uri2 ->
  map (fun cell => (Cell.cellKind cell, Cell.language cell, Cell.getValue cell,
                    Cell.outputs cell))
      (NotebookDocument.cells doc1)
  = map (fun cell => (Cell.cellKind cell, Cell.language cell, Cell.getValue cell,
                      Cell.outputs cell))
        (NotebookDocument.cells doc2).
Proof.
  intros Hj Hb Hu Hfind1 Hfind2 Hmd1 Hmd2 Hsame.
  destruct (open_backup_document contentOptions0 uri1 documents1 doc1
              Hj Hb Hu Hfind1 Hmd1) as [buffer1 [Hbackup1 Hopen1]].
  destruct (open_backup_document contentOptions0 uri2 documents2 doc2
              Hj Hb Hu Hfind2 Hmd2) as [buffer2 [Hbackup2 Hopen2]].
  rewrite Hbackup1, Hbackup2 in Hsame. injection Hsame as <-.
  change (controller.open contentOptions0 uri2 (IdBuffer buffer1))
    with (controller.open contentOptions0 uri1 (IdBuffer buffer1)) in Hopen2.
  rewrite Hopen1 in Hopen2. injection Hopen2 as Hcells.
  revert Hcells. apply map_eq_transfer.
  intros x y E. injection E as Ev El Ek Eo _.
  apply CellKind_value_injective in Ek.
  apply (map_eq_injective dto_of_output dto_of_output_injective) in Eo.
  congruence.
Qed.

Lemma backup_determines_cells_witness :
  map (fun cell => (Cell.cellKind cell, Cell.language cell, Cell.getValue cell,
                    Cell.outputs cell))
      (NotebookDocument.cells python_document)
  = map (fun cell => (Cell.cellKind cell, Cell.language cell, Cell.getValue cell,
                      Cell.outputs cell))
        (NotebookDocument.cells
           (NotebookDocument.make plot_uri [python_cell])).
Proof.
  apply (backup_determines_cells (rt := Reference.runtime)
           [python_document] [NotebookDocument.make plot_uri [python_cell]]
           python_uri plot_uri).
  - apply ReferenceFacts.runtime_JSON_roundtrip.
  - apply ReferenceFacts.runtime_VSBuffer_roundtrip.
  - apply ReferenceFacts.runtime_Uint8Array_roundtrip.
  - reflexivity.
  - reflexivity.
  - repeat constructor; discriminate.
  - repeat constructor; discriminate.
  - vm_compute. reflexivity.
Defined.

(** X8. [backup] answers a buffer exactly when some listed document has
    the string of the URI: it never answers a buffer for an unknown
    document, and never the empty string for a listed one. *)
Theorem backup_buffer_iff {rt : Runtime}
    (documents : list NotebookDocument.t) (uri : URI) :
  (exists buffer, controller.backup documents uri = inr buffer)
  <-> exists document,
        In document documents
        /\ URI_toString (NotebookDocument.uri document) = URI_toString uri.
Proof.
  unfold controller.backup, controller.find_document. split.
  - intros [buffer Hb].
    destruct (find _ documents) as [doc|] eqn:E; [|discriminate Hb].
    apply find_some in E. destruct E as [Hin Heq].
    exists doc. split; [exact Hin | apply String.eqb_eq, Heq].
  - intros [document [Hin Heq]].
    destruct (find _ documents) as [doc|] eqn:E; [eexists; reflexivity|].
    exfalso. apply (find_none _ _ E) in Hin.
    apply String.eqb_eq in Heq. congruence.
Qed.

(** ** The editor input serializer, continued *)

Lemma field_falsy (data : jsval) (k : string) :
  truthy data = false -> field data k = VUndefined.
Proof.
  unfold field. destruct data; cbn; try discriminate; reflexivity.
Qed.

(** X9. What [deserialize] returns, in closed form: it throws exactly when
    the marshaller throws; otherwise it returns an editor input exactly
    when the payload has URI instances under both [resource] and
    [inputResource], the input created from those two, and [undefined] in
    every other case.  Nothing else in the payload is looked at. *)
Theorem deserialize_closed_form {rt : Runtime} (raw : string) :
  InteractiveEditorSerializer.deserialize raw
  = match marshalling_parse raw with
    | None => Throw SyntaxError
    | Some data =>
        Normal
          match field data "resource", field data "inputResource" with
          | VUri resource, VUri inputResource =>
              Some (InteractiveEditorInput.create resource inputResource)
          | _, _ => None
          end
    end.
Proof.
  unfold InteractiveEditorSerializer.deserialize.
  destruct (marshalling_parse raw) as [data|]; [|reflexivity]. cbn [bind].
  destruct (truthy data) eqn:Ht; cbn [negb].
  - rewrite !get_truthy by exact Ht. cbn [bind orb].
    destruct (field data "resource"); try reflexivity;
      destruct (field data "inputResource"); reflexivity.
  - rewrite !field_falsy by exact Ht. reflexivity.
Qed.

(** X10. Different editor inputs are serialized to different strings: with
    a marshaller that revives the URIs it wrote, two interactive inputs
    with the same serialized form have the same primary resource and the
    same input resource. *)
Theorem serialize_injective {rt : Runtime}
    (input1 input2 : InteractiveEditorInput.t) :
  marshalling_roundtrip rt ->
  InteractiveEditorSerializer.serialize (InteractiveInput input1)
  = InteractiveEditorSerializer.serialize (InteractiveInput input2) ->
  input1 = input2.
Proof.
  intros Hm E. cbn [InteractiveEditorSerializer.serialize] in E.
  injection E as E. apply (f_equal marshalling_parse) in E.
  rewrite !Hm in E. injection E as Er Ei.
  destruct input1 as [[r1] i1], input2 as [[r2] i2]. cbn in *. congruence.
Qed.

Lemma serialize_injective_witness :
  python_input = InteractiveEditorInput.create python_uri
                   (URI_from "vscode-interactive-input" "InteractiveInput-1").
Proof.
  apply (serialize_injective (rt := Reference.runtime)).
  - exact runtime_marshalling_roundtrip.
  - reflexivity.
Defined.

(** ** [interactive.open], continued *)

Section OpenProperties.
Context {rt : Runtime}.

(** What the loop returns, when it returns: the identifiers of the first
    counter, from [counter] on, that is not taken. *)
Lemma mint_Some (existing : list string) (fuel : nat) :
  forall counter notebookUri inputUri,
    commands.mint fuel counter existing = Some (notebookUri, inputUri) ->
    exists n,
      counter <= n < counter + fuel /\
      notebookUri = commands.mint_notebookUri n /\
      inputUri = commands.mint_inputUri n /\
      taken existing n = false /\
      forall m, counter <= m < n -> taken existing m = true.
Proof.
  induction fuel as [|fuel IH]; intros counter notebookUri inputUri Hm;
    [discriminate Hm|].
  cbn [commands.mint] in Hm. fold (taken existing counter) in Hm.
  destruct (taken existing counter) eqn:E.
  - destruct (IH _ _ _ Hm) as [n [Hn [Hu [Hi [Hf Hmin]]]]].
    exists n. repeat split; try assumption; try lia.
    intros m Hlt. destruct (Nat.eq_dec m counter) as [->|Hne]; [exact E|].
    apply Hmin. lia.
  - injection Hm as <- <-. exists counter.
    repeat split; try assumption; try lia.
Qed.

Lemma existing_documents_length (editors : list IEditorIdentifier) :
  List.length (commands.existing_documents editors) <= List.length editors.
Proof.
  unfold commands.existing_documents.
  induction editors as [|id l IH]; cbn [flat_map List.length]; [lia|].
  rewrite length_app.
  destruct (EditorInput_resource (editor id)); cbn [List.length]; lia.
Qed.

Lemma filter_none {A : Type} (p : A -> bool) (l : list A) :
  (forall x, In x l -> p x = false) -> filter p l = [].
Proof.
  induction l as [|x l IH]; intros Hp; [reflexivity|]. cbn [filter].
  rewrite (Hp x (or_introl eq_refl)). apply IH.
  intros y Hy. apply Hp. right. exact Hy.
Qed.

Lemma filter_head {A : Type} (p : A -> bool) (l : list A) x rest :
  filter p l = x :: rest -> In x l /\ p x = true.
Proof.
  intros E. apply filter_In. rewrite E. left. reflexivity.
Qed.

Lemma filter_not_nil {A : Type} (p : A -> bool) (l : list A) x :
  In x l -> p x = true -> filter p l <> [].
Proof.
  intros Hin Hp E.
  assert (Hf : In x (filter p l)) by (apply filter_In; auto).
  rewrite E in Hf. destruct Hf.
Qed.

End OpenProperties.

(** X11. An interactive editor that already shows the resource is reused:
    if [resource] has the interactive scheme and the editor service finds
    an interactive editor whose resource has the same string, the command
    returns the two URIs of such an editor, opens it in the group it is
    in, whatever the column, and neither mints identifiers nor touches the
    history. *)
Theorem open_reuses_existing {rt : Runtime} {H : Type}
    {history : IInteractiveHistoryService H}
    (column : option Z) (resource : URI) (w : Workbench H)
    (id : IEditorIdentifier) (input : InteractiveEditorInput.t) :
  scheme resource = Schemas_vscodeInteractive ->
  In id (findEditors (editorService w) resource) ->
  editor id = InteractiveInput input ->
  URI_toString (InteractiveEditorInput.resource input) = URI_toString resource ->
  exists id' input',
    In id' (findEditors (editorService w) resource) /\
    editor id' = InteractiveInput input' /\
    URI_toString (InteractiveEditorInput.resource input') = URI_toString resource /\
    commands.open_run column (Some resource) w
    = Some ((InteractiveEditorInput.resource input',
             InteractiveEditorInput.inputResource input'),
            w, [call_openEditor input' (groupId id')]).
Proof.
  intros Hscheme Hin Hed Hstr.
  unfold commands.open_run, commands.open_existing.
  rewrite Hscheme, String.eqb_refl.
  match goal with
  | |- context [filter ?p (findEditors (editorService w) resource)] =>
      set (matches := p)
  end.
  assert (Hid : matches id = true)
    by (unfold matches; rewrite Hed; apply String.eqb_eq, Hstr).
  destruct (filter matches (findEditors (editorService w) resource))
    as [|id' rest] eqn:E.
  - exfalso. exact (filter_not_nil _ _ _ Hin Hid E).
  - destruct (filter_head _ _ _ _ E) as [Hin' Hp'].
    unfold matches in Hp'.
    destruct (editor id') as [input'|] eqn:Ed'; [|discriminate Hp'].
    apply String.eqb_eq in Hp'.
    exists id', input'. repeat split; try assumption.
Qed.

Lemma open_reuses_existing_witness :
  exists id' input',
    In id' (findEditors python_editorService python_uri) /\
    editor id' = InteractiveInput input' /\
    Reference.format_uri (InteractiveEditorInput.resource input')
    = Reference.format_uri python_uri /\
    commands.open_run (Some 2%Z) (Some python_uri) python_workbench
    = Some ((InteractiveEditorInput.resource input',
             InteractiveEditorInput.inputResource input'),
            python_workbench, [call_openEditor input' (groupId id')]).
Proof.
  exact (open_reuses_existing (rt := Reference.runtime) (Some 2%Z) python_uri
           python_workbench
           {| groupId := 0; editor := InteractiveInput python_input |}
           python_input eq_refl (or_introl eq_refl) eq_refl eq_refl).
Defined.

(** X12. A resource that cannot be reused is ignored: when [resource] is
    absent, or has another scheme, or no interactive editor the editor
    service finds for it has its string, the command does what it does
    without a resource, that is, it mints a new session. *)
Theorem open_ignores_resource {rt : Runtime} {H : Type}
    {history : IInteractiveHistoryService H}
    (column : option Z) (resource : option URI) (w : Workbench H) :
  (forall r, resource = Some r ->
     scheme r <> Schemas_vscodeInteractive
     \/ forall id input,
          In id (findEditors (editorService w) r) ->
          editor id = InteractiveInput input ->
          URI_toString (InteractiveEditorInput.resource input)
          <> URI_toString r) ->
  commands.open_run column resource w = commands.open_run column None w.
Proof.
  intros Hno. unfold commands.open_run.
  assert (Hex : commands.open_existing (editorService w) resource = None).
  { unfold commands.open_existing. destruct resource as [r|]; [|reflexivity].
    destruct (Hno r eq_refl) as [Hscheme | Hnone].
    - apply String.eqb_neq in Hscheme. rewrite Hscheme. reflexivity.
    - destruct (String.eqb (scheme r) Schemas_vscodeInteractive); [|reflexivity].
      rewrite filter_none; [reflexivity|].
      intros id Hin. destruct (editor id) as [input|] eqn:Ed; [|reflexivity].
      apply String.eqb_neq. exact (Hnone id input Hin Ed). }
  rewrite Hex. reflexivity.
Qed.

Lemma open_ignores_resource_witness :
  commands.open_run (Some 1%Z)
    (Some (URI_from "file" "Interactive-1.interactive")) python_workbench
  = commands.open_run (Some 1%Z) None python_workbench.
Proof.
  apply (open_ignores_resource (rt := Reference.runtime)).
  intros r Hr. injection Hr as <-. left. vm_compute. discriminate.
Defined.

(** X13. The suffix is at most one more than the number of open editors:
    if URIs minted for different counters have different strings, there is
    a counter [n] between 1 and the number of open editors plus one whose
    identifiers the loop returns, with every number of rounds greater than
    the number of resources of open editors; [interactive.open] without an
    editor to reuse returns these identifiers. *)
Theorem mint_suffix_bound {rt : Runtime} {H : Type}
    {history : IInteractiveHistoryService H}
    (column : option Z) (w : Workbench H) :
  (forall m n,
     URI_toString (commands.mint_notebookUri m)
     = URI_toString (commands.mint_notebookUri n) -> m = n) ->
  let editors := getEditors (editorService w) in
  exists n,
    1 <= n <= S (List.length editors) /\
    (forall fuel,
       List.length (commands.existing_documents editors) < fuel ->
       commands.mint fuel 1 (commands.existing_documents editors)
       = Some (commands.mint_notebookUri n, commands.mint_inputUri n)) /\
    exists w' calls,
      commands.open_run column None w
      = Some ((commands.mint_notebookUri n, commands.mint_inputUri n),
              w', calls).
Proof.
  intros Hinj editors.
  set (existing := commands.existing_documents editors).
  destruct (some_counter_free existing Hinj) as [k [Hk Hfree]].
  destruct (mint_first_free existing (S (List.length existing)) 1 k Hk Hfree)
    as [n [Hn [Hmint _]]].
  pose proof (existing_documents_length editors) as Hlen. fold existing in Hlen.
  exists n. split; [lia|]. split.
  - intros fuel Hfuel.
    apply (mint_fuel_monotone existing (S (List.length existing))); [exact Hmint | lia].
  - unfold commands.open_run. cbn [commands.open_existing].
    fold editors. fold existing. rewrite Hmint. eexists _, _. reflexivity.
Qed.

(** With the three editors of the example open, two of them on
    [Interactive-1] and [Interactive-3], the suffix is at most 4. *)
Lemma mint_suffix_bound_witness :
  exists n,
    1 <= n <= 4 /\
    (forall fuel,
       List.length
         (commands.existing_documents (rt := Reference.runtime) python_editors)
       < fuel ->
       commands.mint (rt := Reference.runtime) fuel 1
         (commands.existing_documents (rt := Reference.runtime) python_editors)
       = Some (commands.mint_notebookUri (rt := Reference.runtime) n,
               commands.mint_inputUri (rt := Reference.runtime) n)) /\
    exists w' calls,
      commands.open_run (rt := Reference.runtime) None None python_workbench
      = Some ((commands.mint_notebookUri (rt := Reference.runtime) n,
               commands.mint_inputUri (rt := Reference.runtime) n),
              w', calls).
Proof.
  exact (mint_suffix_bound (rt := Reference.runtime) None python_workbench
           reference_mint_injective).
Defined.

(** X14. New sessions opened one after the other get growing suffixes: if
    URIs minted for different counters have different strings, a first
    [interactive.open] without a resource returns the identifiers of a
    counter [n1]; and if a second one runs when the editors open at the
    first call are still open and an editor on the notebook URI the first
    call returned is open too, it returns the identifiers of a counter
    [n2] greater than [n1]. *)
Theorem open_successive_suffixes {rt : Runtime} {H : Type}
    {history : IInteractiveHistoryService H}
    (column1 column2 : option Z) (w w' : Workbench H) :
  (forall m n,
     URI_toString (commands.mint_notebookUri m)
     = URI_toString (commands.mint_notebookUri n) -> m = n) ->
  (forall id, In id (getEditors (editorService w)) ->
              In id (getEditors (editorService w'))) ->
  (forall u1 i1 w1 calls1,
     commands.open_run column1 None w = Some ((u1, i1), w1, calls1) ->
     exists id, In id (getEditors (editorService w'))
                /\ EditorInput_resource (editor id) = Some u1) ->
  exists n1 n2 w1 w2 calls1 calls2,
    commands.open_run column1 None w
    = Some ((commands.mint_notebookUri n1, commands.mint_inputUri n1),
            w1, calls1) /\
    commands.open_run column2 None w'
    = Some ((commands.mint_notebookUri n2, commands.mint_inputUri n2),
            w2, calls2) /\
    1 <= n1 < n2.
Proof.
  intros Hinj Hkeep Hopened.
  unfold commands.open_run in *. cbn [commands.open_existing] in *.
  set (existing := commands.existing_documents (getEditors (editorService w))) in *.
  set (existing' := commands.existing_documents (getEditors (editorService w'))) in *.
  destruct (some_counter_free existing Hinj) as [k1 [Hk1 Hfree1]].
  destruct (mint_first_free existing (S (List.length existing)) 1 k1 Hk1 Hfree1)
    as [n1 [Hn1 [Hmint1 [Hf1 Hmin1]]]].
  destruct (some_counter_free existing' Hinj) as [k2 [Hk2 Hfree2]].
  destruct (mint_first_free existing' (S (List.length existing')) 1 k2 Hk2 Hfree2)
    as [n2 [Hn2 [Hmint2 [Hf2 Hmin2]]]].
  rewrite Hmint1 in Hopened |- *. rewrite Hmint2.
  destruct (Hopened _ _ _ _ eq_refl) as [idn [Hidn Hres]].
  exists n1, n2. eexists _, _, _, _.
  split; [reflexivity|]. split; [reflexivity|]. split; [lia|].
  destruct (Nat.lt_ge_cases n1 n2) as [Hlt|Hge]; [exact Hlt|exfalso].
  assert (Htaken : taken existing' n2 = true).
  { unfold taken. apply Set_has_In, existing_documents_In.
    destruct (Nat.eq_dec n2 n1) as [->|Hne].
    - exists idn, (commands.mint_notebookUri n1). auto.
    - assert (Hold : taken existing n2 = true) by (apply Hmin1; lia).
      unfold taken in Hold. apply Set_has_In, existing_documents_In in Hold.
      destruct Hold as [id [r [Hid [Hr Hs]]]]. exists id, r. auto. }
  congruence.
Qed.

(** The first call mints [Interactive-2]; with an editor on it open beside
    the three others, the second call mints [Interactive-4]. *)
Lemma open_successive_suffixes_witness :
  exists n1 n2 w1 w2 calls1 calls2,
    commands.open_run (rt := Reference.runtime) None None python_workbench
    = Some ((commands.mint_notebookUri (rt := Reference.runtime) n1,
             commands.mint_inputUri (rt := Reference.runtime) n1),
            w1, calls1) /\
    commands.open_run (rt := Reference.runtime) None None second_workbench
    = Some ((commands.mint_notebookUri (rt := Reference.runtime) n2,
             commands.mint_inputUri (rt := Reference.runtime) n2),
            w2, calls2) /\
    1 <= n1 < n2.
Proof.
  apply (open_successive_suffixes (rt := Reference.runtime) None None
           python_workbench second_workbench reference_mint_injective).
  - intros id Hid. apply (in_or_app python_editors _ id). left. exact Hid.
  - intros u1 i1 w1 calls1 E. vm_compute in E. injection E as <- _ _ _.
    eexists. split;
      [apply (in_or_app python_editors); right; left; reflexivity | reflexivity].
Defined.

(** The two sessions of the example are [Interactive-2] and
    [Interactive-4]. *)
Example open_successive_Interactive_4 :
  option_map (fun r => fst (fst r))
             (commands.open_run None None second_workbench)
  = Some (URI_from "vscode-interactive" "Interactive-4.interactive",
          URI_from "vscode-interactive-input" "InteractiveInput-4").
Proof. vm_compute. reflexivity. Qed.

(** X15. The identifiers of different counters are different, and a
    notebook identifier is never an input identifier: the counter can be
    read off the path of either URI. *)
Theorem mint_uris_injective {rt : Runtime} (m n : nat) :
  (commands.mint_notebookUri m = commands.mint_notebookUri n -> m = n)
  /\ (commands.mint_inputUri m = commands.mint_inputUri n -> m = n)
  /\ commands.mint_notebookUri m <> commands.mint_inputUri n.
Proof.
  unfold commands.mint_notebookUri, commands.mint_inputUri, URI_from.
  repeat split.
  - intros E. apply (f_equal path) in E. cbn [path append] in E.
    repeat match type of E with
           | String _ _ = String _ _ => injection E as E
           end.
    apply append_cancel_r in E. apply Number_toString_inj, E.
  - intros E. apply (f_equal path) in E. cbn [path append] in E.
    repeat match type of E with
           | String _ _ = String _ _ => injection E as E
           end.
    apply Number_toString_inj, E.
  - intros E. apply (f_equal path) in E. cbn [path append] in E.
    discriminate E.
Qed.

(** ** [interactive.execute] and the history commands, continued *)

Section MoreCommandProperties.
Context {H : Type} {history : IInteractiveHistoryService H}.

Lemma active_with_control (w : Workbench H) control nb doc text (h : H) :
  commands.active w = Some (control, nb, doc, text) ->
  commands.active (commands.with_control w control h)
  = Some (control, nb, doc, text).
Proof.
  intros Ha. destruct (active_control w control nb doc text Ha)
    as [_ [Hn [Ht Hc]]].
  unfold commands.active, commands.with_control.
  cbn [editorService activeControl]. rewrite Hn, Hc, Ht. reflexivity.
Qed.

Lemma execute_run_active (w : Workbench H) control nb doc v :
  commands.active w = Some (control, nb, doc, v) ->
  commands.execute_run w
  = (commands.with_control w
       (set_textModels control nb
          (applyCellEdit (commands.execute_edit doc (commands.execute_language nb) v)
             doc) "")
       (addToHistory (NotebookDocument.uri doc) "" (historyService w)),
     [call_addToHistory (NotebookDocument.uri doc) "";
      call_setValue "";
      call_bulkEdit_apply
        [commands.execute_edit doc (commands.execute_language nb) v];
      call_executeNotebookCells (NotebookDocument.length doc)
        (NotebookDocument.length doc + 1);
      call_revealCellRangeInView (NotebookDocument.length doc)
        (NotebookDocument.length doc + 1)]).
Proof. intros Ha. unfold commands.execute_run. rewrite Ha. reflexivity. Qed.

Lemma applyCellEdit_execute_edit (doc : NotebookDocument.t) (language v : string) :
  applyCellEdit (commands.execute_edit doc language v) doc
  = NotebookDocument.make (NotebookDocument.uri doc)
      (NotebookDocument.cells doc
       ++ [Cell.make Code language (VObj []) None [] v]).
Proof.
  unfold applyCellEdit, commands.execute_edit, NotebookDocument.length.
  cbn [index count cells cellEdit map]. rewrite splice_at_end. reflexivity.
Qed.

End MoreCommandProperties.

(** X16. Without an interactive editor the commands do nothing: if there is
    no active editor pane, or its control has no notebook editor or no code
    editor, or one of the two has no model, then [interactive.execute] and
    the two history commands leave the workbench as it is and call no
    service; no history entry is added and the history cursor is not
    moved. *)
Theorem commands_without_editor {H : Type}
    {history : IInteractiveHistoryService H} (w : Workbench H) :
  (activeControl (editorService w) = None
   \/ exists control,
        activeControl (editorService w) = Some control
        /\ (notebookEditor control = None
            \/ codeEditor control = None
            \/ (exists nb, notebookEditor control = Some nb
                           /\ textModel nb = None)
            \/ (exists code, codeEditor control = Some code
                             /\ getModel code = None))) ->
  commands.execute_run w = (w, [])
  /\ commands.history_previous_run w = (w, [])
  /\ commands.history_next_run w = (w, []).
Proof.
  intros Hmissing.
  assert (Ha : commands.active w = None).
  { unfold commands.active.
    destruct Hmissing as [-> | [control [-> Hpart]]]; [reflexivity|].
    destruct Hpart as [-> | [Hc | [[nb [-> Ht]] | [code [Hc Hm]]]]].
    - reflexivity.
    - rewrite Hc. destruct (notebookEditor control); reflexivity.
    - rewrite Ht. destruct (codeEditor control); reflexivity.
    - rewrite Hc, Hm. destruct (notebookEditor control) as [nb|]; [|reflexivity].
      destruct (textModel nb); reflexivity. }
  unfold commands.execute_run, commands.history_previous_run,
    commands.history_next_run, commands.history_run.
  rewrite Ha. repeat split; reflexivity.
Qed.

Lemma commands_without_editor_witness :
  commands.execute_run plain_workbench = (plain_workbench, [])
  /\ commands.history_previous_run plain_workbench = (plain_workbench, [])
  /\ commands.history_next_run plain_workbench = (plain_workbench, []).
Proof.
  apply (commands_without_editor plain_workbench).
  right. eexists. split; [reflexivity|]. left. reflexivity.
Defined.

(** X17. [interactive.execute] runs and reveals the cell it appended: its
    calls are, in this order, [addToHistory], [setValue], the bulk edit,
    [executeNotebookCells] and [revealCellRangeInView], the last two for
    the range from [n] to [n + 1], where [n] is the number of cells before;
    after the edit that range is the last cell of the document and nothing
    else, namely the new cell.  The kernel and the list of open editors are
    as before. *)
Theorem execute_runs_new_cell {H : Type}
    {history : IInteractiveHistoryService H}
    (w : Workbench H) control nb doc v :
  commands.active w = Some (control, nb, doc, v) ->
  let n := NotebookDocument.length doc in
  let language := commands.execute_language nb in
  snd (commands.execute_run w)
  = [call_addToHistory (NotebookDocument.uri doc) "";
     call_setValue "";
     call_bulkEdit_apply [commands.execute_edit doc language v];
     call_executeNotebookCells n (n + 1);
     call_revealCellRangeInView n (n + 1)]
  /\ getEditors (editorService (fst (commands.execute_run w)))
     = getEditors (editorService w)
  /\ exists doc',
       active_notebook (fst (commands.execute_run w))
       = Some (activeKernel nb, doc')
       /\ NotebookDocument.length doc' = n + 1
       /\ skipn n (NotebookDocument.cells doc')
          = [Cell.make Code language (VObj []) None [] v].
Proof.
  intros Ha n language. rewrite (execute_run_active w control nb doc v Ha).
  cbn [fst snd]. split; [reflexivity|]. split; [reflexivity|].
  rewrite applyCellEdit_execute_edit. eexists. split; [reflexivity|].
  unfold NotebookDocument.length in *. cbn [NotebookDocument.cells]. split.
  - rewrite length_app. cbn [List.length]. reflexivity.
  - subst n. rewrite skipn_app, skipn_all, Nat.sub_diag. reflexivity.
Qed.

Lemma execute_runs_new_cell_witness :
  snd (commands.execute_run python_workbench)
  = [call_addToHistory python_uri "";
     call_setValue "";
     call_bulkEdit_apply [commands.execute_edit python_document "python" "print(2)"];
     call_executeNotebookCells 1 2;
     call_revealCellRangeInView 1 2]
  /\ getEditors (editorService (fst (commands.execute_run python_workbench)))
     = python_editors
  /\ exists doc',
       active_notebook (fst (commands.execute_run python_workbench))
       = Some (Some {| supportedLanguages := ["python"; "r"] |}, doc')
       /\ NotebookDocument.length doc' = 2
       /\ skipn 1 (NotebookDocument.cells doc')
          = [Cell.make Code "python" (VObj []) None [] "print(2)"].
Proof.
  exact (execute_runs_new_cell python_workbench python_control
           python_notebookEditor python_document "print(2)" eq_refl).
Defined.

(** X18. Executing twice in a row appends an empty cell: the command does
    not look at the text it submits, so after it has emptied the input a
    second run appends, after the cell with the text, a cell whose source
    is the empty string. *)
Theorem execute_twice {H : Type} {history : IInteractiveHistoryService H}
    (w : Workbench H) control nb doc v :
  commands.active w = Some (control, nb, doc, v) ->
  let language := commands.execute_language nb in
  exists control' nb' doc',
    commands.active (fst (commands.execute_run (fst (commands.execute_run w))))
    = Some (control', nb', doc', "")
    /\ NotebookDocument.cells doc'
       = (NotebookDocument.cells doc
          ++ [Cell.make Code language (VObj []) None [] v;
              Cell.make Code language (VObj []) None [] ""])%list.
Proof.
  intros Ha language.
  rewrite (execute_run_active w control nb doc v Ha). cbn [fst].
  rewrite applyCellEdit_execute_edit.
  erewrite execute_run_active by reflexivity. cbn [fst].
  rewrite applyCellEdit_execute_edit.
  eexists _, _, _. split; [reflexivity|].
  cbn [NotebookDocument.cells]. rewrite <- app_assoc. reflexivity.
Qed.

Lemma execute_twice_witness :
  exists control' nb' doc',
    commands.active
      (fst (commands.execute_run (fst (commands.execute_run python_workbench))))
    = Some (control', nb', doc', "")
    /\ NotebookDocument.cells doc'
       = [python_cell;
          Cell.make Code "python" (VObj []) None [] "print(2)";
          Cell.make Code "python" (VObj []) None [] ""].
Proof.
  exact (execute_twice python_workbench python_control python_notebookEditor
           python_document "print(2)" eq_refl).
Defined.

(** X19. A value from the history replaces the text of the input: if the
    history service answers a string that is not empty, the command sets
    the input to exactly that string with one [setValue], keeps the
    notebook document and the kernel, and leaves the history service in
    the state the getter returned. *)
Theorem history_value_sets_text {H : Type}
    {history : IInteractiveHistoryService H}
    (w : Workbench H) control nb doc text (s : string) (h : H) :
  commands.active w = Some (control, nb, doc, text) ->
  s <> "" ->
  (getPreviousValue (NotebookDocument.uri doc) (historyService w) = (Some s, h) ->
   commands.history_previous_run w
   = (commands.with_control w (set_textModels control nb doc s) h,
      [call_getPreviousValue (NotebookDocument.uri doc); call_setValue s])
   /\ commands.active (fst (commands.history_previous_run w))
      = Some (set_textModels control nb doc s,
              {| textModel := Some doc; activeKernel := activeKernel nb |},
              doc, s))
  /\
  (getNextValue (NotebookDocument.uri doc) (historyService w) = (Some s, h) ->
   commands.history_next_run w
   = (commands.with_control w (set_textModels control nb doc s) h,
      [call_getNextValue (NotebookDocument.uri doc); call_setValue s])
   /\ commands.active (fst (commands.history_next_run w))
      = Some (set_textModels control nb doc s,
              {| textModel := Some doc; activeKernel := activeKernel nb |},
              doc, s)).
Proof.
  intros Ha Hs. apply String.eqb_neq in Hs.
  split; intros Hv;
    unfold commands.history_previous_run, commands.history_next_run,
      commands.history_run;
    rewrite Ha, Hv; cbn [truthy]; rewrite Hs; cbn [negb fst];
    split; reflexivity.
Qed.

Lemma history_value_sets_text_witness :
  commands.history_previous_run
    {| editorService := python_editorService;
       historyService := Reference.store_addToHistory python_uri "print(1)"
                           Reference.empty_store |}
  = (commands.with_control
       {| editorService := python_editorService;
          historyService := Reference.store_addToHistory python_uri "print(1)"
                              Reference.empty_store |}
       (set_textModels python_control python_notebookEditor python_document
          "print(1)")
       (snd (Reference.store_getPreviousValue python_uri
               (Reference.store_addToHistory python_uri "print(1)"
                  Reference.empty_store))),
     [call_getPreviousValue python_uri; call_setValue "print(1)"])
  /\ commands.active
       (fst (commands.history_previous_run
               {| editorService := python_editorService;
                  historyService :=
                    Reference.store_addToHistory python_uri "print(1)"
                      Reference.empty_store |}))
     = Some (set_textModels python_control python_notebookEditor python_document
               "print(1)",
             {| textModel := Some python_document;
                activeKernel := activeKernel python_notebookEditor |},
             python_document, "print(1)").
Proof.
  refine (proj1 (history_value_sets_text
                   {| editorService := python_editorService;
                      historyService :=
                        Reference.store_addToHistory python_uri "print(1)"
                          Reference.empty_store |}
                   python_control python_notebookEditor python_document
                   "print(2)" "print(1)" _ eq_refl _) eq_refl).
  discriminate.
Defined.

(** X20. The history commands touch nothing but the input and the history
    cursor: whatever the workbench and whatever the history service
    answers, after [interactive.history.previous] or
    [interactive.history.next] the notebook document and the kernel of the
    active editor and the open editors are as before, and every call made
    is a call of the getter or [setValue] (never [addToHistory], a bulk
    edit or an execution). *)
Theorem history_commands_keep_notebook {H : Type}
    {history : IInteractiveHistoryService H} (w : Workbench H) :
  (active_notebook (fst (commands.history_previous_run w)) = active_notebook w
   /\ getEditors (editorService (fst (commands.history_previous_run w)))
      = getEditors (editorService w)
   /\ forallb history_call (snd (commands.history_previous_run w)) = true)
  /\
  (active_notebook (fst (commands.history_next_run w)) = active_notebook w
   /\ getEditors (editorService (fst (commands.history_next_run w)))
      = getEditors (editorService w)
   /\ forallb history_call (snd (commands.history_next_run w)) = true).
Proof.
  assert (Hgen : forall getValue call,
             (forall uri, history_call (call uri) = true) ->
             active_notebook (fst (commands.history_run getValue call w))
             = active_notebook w
             /\ getEditors (editorService (fst (commands.history_run getValue call w)))
                = getEditors (editorService w)
             /\ forallb history_call (snd (commands.history_run getValue call w))
                = true).
  { intros getValue call Hcall. unfold commands.history_run, active_notebook.
    destruct (commands.active w) as [[[[control nb] doc] text]|] eqn:Ha;
      [|cbn [fst snd]; rewrite Ha; repeat split; reflexivity].
    destruct (getValue (NotebookDocument.uri doc) (historyService w))
      as [[value|] h].
    - destruct (truthy (VStr value)); cbn [fst snd forallb history_call].
      + rewrite Hcall. repeat split; reflexivity.
      + rewrite (active_with_control w control nb doc text h Ha), Hcall.
        repeat split; reflexivity.
    - cbn [fst snd forallb]. 
      rewrite (active_with_control w control nb doc text h Ha), Hcall.
      repeat split; reflexivity. }
  split; apply Hgen; reflexivity.
Qed.

(** ** The options object *)

Section OptionsProperties.
Import options.

Lemma nth_error_list_write_same {A : Type} (l : nat) (x : A) (s : list A) :
  l < List.length s -> nth_error (list_write l x s) l = Some x.
Proof.
  revert l. induction s as [|y s IH]; intros [|l] Hl; cbn in *; try lia.
  - reflexivity.
  - apply IH. lia.
Qed.

Lemma nth_error_list_write_other {A : Type} (l l' : nat) (x : A) (s : list A) :
  l' <> l -> nth_error (list_write l x s) l' = nth_error s l'.
Proof.
  revert l l'. induction s as [|y s IH]; intros [|l] [|l'] Hne; cbn;
    try reflexivity; try congruence.
  apply IH. congruence.
Qed.

Lemma list_write_twice {A : Type} (l : nat) (x y : A) (s : list A) :
  list_write l y (list_write l x s) = list_write l y s.
Proof.
  revert l. induction s as [|z s IH]; intros [|l]; cbn; try reflexivity.
  rewrite IH. reflexivity.
Qed.

Lemma length_list_write {A : Type} (l : nat) (x : A) (s : list A) :
  List.length (list_write l x s) = List.length s.
Proof.
  revert l. induction s as [|z s IH]; intros [|l]; cbn; try reflexivity.
  rewrite IH. reflexivity.
Qed.

Lemma nth_error_list_write {A : Type} (l l' : nat) (x y : A) (s : list A) :
  nth_error s l = Some y ->
  nth_error (list_write l x s) l'
  = if Nat.eqb l' l then Some x else nth_error s l'.
Proof.
  intros Hy. destruct (Nat.eqb_spec l' l) as [->|Hne].
  - apply nth_error_list_write_same.
    apply nth_error_Some. congruence.
  - apply nth_error_list_write_other, Hne.
Qed.

(** The setter, in one step: the object at [contentOptions] becomes a copy
    of the object at [newOptions]; the maps are not touched. *)
Lemma set_options_Some (c : Controller) (newOptions : nat) (s : Store)
    (new old : OptionsObject) :
  nth_error (objects s) newOptions = Some new ->
  nth_error (objects s) (contentOptions c) = Some old ->
  set_options c newOptions s
  = Some {| objects := list_write (contentOptions c) new (objects s);
            maps := maps s |}.
Proof.
  intros Hnew Hold.
  assert (Hlt : contentOptions c < List.length (objects s))
    by (apply nth_error_Some; congruence).
  unfold set_options, assign. rewrite Hnew, Hold. cbn [objects maps].
  destruct (Nat.eq_dec newOptions (contentOptions c)) as [E|Hne].
  - rewrite E in *. assert (new = old) by congruence. subst old.
    repeat (rewrite nth_error_list_write_same
              by (rewrite ?length_list_write; exact Hlt);
            cbn [objects maps]).
    rewrite !list_write_twice. destruct new; reflexivity.
  - repeat (rewrite ?nth_error_list_write_same
              by (rewrite ?length_list_write; exact Hlt);
            rewrite ?(nth_error_list_write_other _ _ _ _ Hne), ?Hnew;
            cbn [objects maps]).
    rewrite !list_write_twice. destruct new; reflexivity.
Qed.

Lemma set_options_inv (c : Controller) (newOptions : nat) (s s' : Store) :
  set_options c newOptions s = Some s' ->
  exists new old,
    nth_error (objects s) newOptions = Some new
    /\ nth_error (objects s) (contentOptions c) = Some old
    /\ s' = {| objects := list_write (contentOptions c) new (objects s);
               maps := maps s |}.
Proof.
  intros Hset.
  destruct (nth_error (objects s) newOptions) as [new|] eqn:Hnew;
    [|unfold set_options in Hset; rewrite Hnew in Hset; discriminate Hset].
  destruct (nth_error (objects s) (contentOptions c)) as [old|] eqn:Hold;
    [|unfold set_options, assign in Hset; rewrite Hnew, Hold in Hset;
      discriminate Hset].
  rewrite (set_options_Some c newOptions s new old Hnew Hold) in Hset.
  injection Hset as <-. exists new, old. auto.
Qed.

Lemma snapshot_after_set (c : Controller) (newOptions : nat) (s s' : Store) :
  set_options c newOptions s = Some s' ->
  snapshot s' (contentOptions c) = snapshot s newOptions
  /\ snapshot s' newOptions = snapshot s newOptions.
Proof.
  intros Hset.
  destruct (set_options_inv c newOptions s s' Hset)
    as [new [old [Hnew [Hold ->]]]].
  unfold snapshot. cbn [objects maps].
  rewrite !(nth_error_list_write _ _ _ old _ Hold), Nat.eqb_refl, Hnew.
  destruct (Nat.eqb newOptions (contentOptions c)); split; reflexivity.
Qed.

(** The options of a provider just constructed, whatever the store held
    before. *)
Lemma construct_snapshot (s : Store) :
  snapshot (snd (construct s)) (get_options (fst (construct s)))
  = Some contentOptions0.
Proof.
  unfold snapshot, construct, get_options. cbn [fst snd objects maps contentOptions].
  rewrite nth_error_app2, Nat.sub_diag by lia. cbn [nth_error].
  cbn [transientCellMetadata_of transientDocumentMetadata_of transientOutputs_of].
  rewrite !nth_error_app2 by lia.
  replace (List.length (maps s) - List.length (maps s)) with 0 by lia.
  replace (S (List.length (maps s)) - List.length (maps s)) with 1 by lia.
  reflexivity.
Qed.

End OptionsProperties.

(** X21. Setting the options changes the one object all results share:
    after [controller.options = newOptions], reading [controller.options]
    shows the flag and the two maps of [newOptions], and so does reading
    the [transientOptions] of a result that [open] returned before the
    assignment, because that result refers to the object of the provider
    and holds no copy.  The object [newOptions] itself reads as before. *)
Theorem set_options_reaches_results {rt : Runtime} (c : options.Controller)
    (s s' : options.Store) (uri : URI) (backupId : BackupId)
    (result : OpenResult) (ref newOptions : nat) :
  options.open c s uri backupId = Some (result, ref) ->
  options.set_options c newOptions s = Some s' ->
  Some (transientOptions result) = options.snapshot s ref
  /\ options.snapshot s' ref = options.snapshot s newOptions
  /\ options.snapshot s' (options.get_options c) = options.snapshot s newOptions
  /\ options.snapshot s' newOptions = options.snapshot s newOptions.
Proof.
  intros Hopen Hset. unfold options.open in Hopen.
  destruct (options.snapshot s (options.contentOptions c)) as [now|] eqn:Hnow;
    [|discriminate Hopen].
  injection Hopen as <- <-.
  destruct (snapshot_after_set c newOptions s s' Hset) as [Hc Hn].
  repeat split; try assumption.
  rewrite Hnow. f_equal. apply open_transientOptions.
Qed.

Lemma set_options_reaches_results_witness :
  exists result ref s',
    options.open (rt := Reference.runtime) (fst two_options) (snd two_options)
      python_uri IdUndefined = Some (result, ref)
    /\ options.set_options (fst two_options) 1 (snd two_options) = Some s'
    /\ transientOptions result = contentOptions0
    /\ options.snapshot s' ref = Some custom_options
    /\ options.snapshot s' (options.get_options (fst two_options))
       = Some custom_options
    /\ options.snapshot s' 1 = Some custom_options.
Proof.
  eexists _, _, _. split; [reflexivity|]. split; [reflexivity|].
  destruct (set_options_reaches_results (rt := Reference.runtime)
              (fst two_options) (snd two_options) _ python_uri IdUndefined
              _ _ 1 eq_refl eq_refl) as [H1 [H2 [H3 H4]]].
  split; [reflexivity|]. split; [exact H2|]. split; [exact H3 | exact H4].
Defined.

(** X22. The setter copies the flag and shares the maps: after
    [controller.options = newOptions], a later write to the cell metadata
    map (or the document metadata map) of [newOptions] shows in
    [controller.options], since the provider now holds those very maps;
    a later assignment to a field of the object [newOptions] does not,
    when [newOptions] is not the object of the provider itself. *)
Theorem set_options_shares_maps (c : options.Controller)
    (s s' : options.Store) (newOptions : nat) (new : options.OptionsObject)
    (before : TransientOptions) :
  nth_error (options.objects s) newOptions = Some new ->
  options.snapshot s newOptions = Some before ->
  options.set_options c newOptions s = Some s' ->
  (forall entries,
     option_map transientCellMetadata
       (options.snapshot
          (options.write_map (options.transientCellMetadata_of new) entries s')
          (options.get_options c))
     = Some entries)
  /\ (forall entries,
        option_map transientDocumentMetadata
          (options.snapshot
             (options.write_map (options.transientDocumentMetadata_of new)
                entries s')
             (options.get_options c))
        = Some entries)
  /\ (newOptions <> options.contentOptions c ->
      forall update s'',
        options.assign newOptions update s' = Some s'' ->
        options.snapshot s'' (options.get_options c) = Some before).
Proof.
  intros Hnew Hbefore Hset.
  destruct (set_options_inv c newOptions s s' Hset)
    as [new' [old [Hnew' [Hold ->]]]].
  assert (new' = new) by congruence. subst new'.
  unfold options.snapshot in Hbefore. rewrite Hnew in Hbefore.
  destruct (nth_error (options.maps s) (options.transientCellMetadata_of new))
    as [cm|] eqn:Hcm; [|discriminate Hbefore].
  destruct (nth_error (options.maps s) (options.transientDocumentMetadata_of new))
    as [dm|] eqn:Hdm; [|discriminate Hbefore].
  injection Hbefore as <-.
  unfold options.snapshot, options.write_map, options.get_options, options.assign.
  cbn [options.objects options.maps].
  rewrite !(nth_error_list_write _ _ _ old _ Hold), Nat.eqb_refl.
  lazy beta iota. repeat split.
  - intros entries.
    rewrite !(nth_error_list_write _ _ _ cm _ Hcm), Nat.eqb_refl.
    destruct (Nat.eqb _ _); [reflexivity | rewrite Hdm; reflexivity].
  - intros entries.
    rewrite !(nth_error_list_write _ _ _ dm _ Hdm), Nat.eqb_refl.
    destruct (Nat.eqb _ _); [reflexivity | rewrite Hcm; reflexivity].
  - intros Hne update s'' Hassign.
    apply Nat.eqb_neq in Hne. rewrite Hne, Hnew in Hassign.
    apply Nat.eqb_neq in Hne.
    injection Hassign as <-. cbn [options.objects options.maps].
    rewrite nth_error_list_write_other by congruence.
    rewrite (nth_error_list_write _ _ _ old _ Hold), Nat.eqb_refl, Hcm, Hdm.
    reflexivity.
Qed.

Lemma set_options_shares_maps_witness :
  exists s',
    options.set_options (fst two_options) 1 (snd two_options) = Some s'
    /\ (forall entries,
          option_map transientCellMetadata
            (options.snapshot (options.write_map 2 entries s')
               (options.get_options (fst two_options)))
          = Some entries)
    /\ (forall entries,
          option_map transientDocumentMetadata
            (options.snapshot (options.write_map 3 entries s')
               (options.get_options (fst two_options)))
          = Some entries)
    /\ (1 <> options.contentOptions (fst two_options) ->
        forall update s'',
          options.assign 1 update s' = Some s'' ->
          options.snapshot s'' (options.get_options (fst two_options))
          = Some custom_options).
Proof.
  eexists. split; [reflexivity|].
  exact (set_options_shares_maps (fst two_options) (snd two_options) _ 1
           {| options.transientOutputs_of := false;
              options.transientCellMetadata_of := 2;
              options.transientDocumentMetadata_of := 3 |}
           custom_options eq_refl eq_refl eq_refl).
Defined.
